(** * Payment-UZ: checkout-URL builders and webhook verifiers of [server.py]

    The tool functions of [server.py] are embedded as Rocq functions over a
    small model of the Python runtime they call: [str] values are lists of
    Unicode code points, [bytes] values are lists of octets, a [float] is an
    IEEE-754 binary64 number (Rocq's primitive floats), a [dict] literal is
    an insertion-ordered association list, and a call that can raise
    returns a [result]. The runtime functions follow CPython 3.11, down to
    the text of the exceptions, since [payme_verify_webhook_auth] returns
    that text.

    Layout: the runtime fragments ([str] methods, UTF-8, [float], [base64],
    [hashlib]) come first, then the functions of [server.py] under their
    own names, then the lemmas about the runtime and the properties of the
    tool functions. *)

From Stdlib Require Import String Ascii ZArith List Bool Lia DecimalString Floats.
Import ListNotations.
Local Open Scope Z_scope.

(* ================================================================== *)
(** * Python values *)
(* ================================================================== *)

(** A [str] is a sequence of code points, a [bytes] a sequence of octets. *)
Definition str := list Z.
Definition bytes := list Z.

(** A string literal of the source: every character of the literals used
    below is ASCII, so a character is its own code point. *)
Definition lit (s : string) : str :=
  map (fun a => Z.of_N (N_of_ascii a)) (list_ascii_of_string s).

Definition is_byte (b : Z) : Prop := 0 <= b < 256.

(** [==] on [str]. *)
Fixpoint str_eqb (a b : str) : bool :=
  match a, b with
  | [], [] => true
  | x :: a', y :: b' => (x =? y) && str_eqb a' b'
  | _, _ => false
  end.

(** The exceptions the modelled calls can raise, with the attributes that
    [str(e)] prints. *)
Inductive exn : Type :=
| ValueError (msg : str)
| OverflowError (msg : str)
| IndexError (msg : str)
| binascii_Error (msg : str)
| UnicodeEncodeError (encoding : str) (object : str) (start stop : Z) (reason : str)
| UnicodeDecodeError (encoding : str) (object : bytes) (start stop : Z) (reason : str).

(** The outcome of a call: a value, or a raised exception. *)
Inductive result (A : Type) : Type :=
| Ok (a : A)
| Raise (e : exn).
Arguments Ok {A} a.
Arguments Raise {A} e.

Definition bind {A B : Type} (r : result A) (k : A -> result B) : result B :=
  match r with
  | Ok a => k a
  | Raise e => Raise e
  end.

Notation "x <- r ;; k" := (bind r (fun x => k))
  (at level 61, r at next level, right associativity).

(** [try: body / except Exception as e: handler e]. *)
Definition try_except {A : Type} (body : result A) (handler : exn -> result A)
  : result A :=
  match body with
  | Ok a => Ok a
  | Raise e => handler e
  end.

(** [xs[i]] for a non-negative index. *)
Definition getitem {A : Type} (xs : list A) (i : nat) : result A :=
  match nth_error xs i with
  | Some x => Ok x
  | None => Raise (IndexError (lit "list index out of range"))
  end.

(* ------------------------------------------------------------------ *)
(** ** Integers and hexadecimal in text *)

(** [str(n)] for an [int]: decimal digits, with a minus sign when negative. *)
Definition str_of_int (z : Z) : str := lit (NilZero.string_of_int (Z.to_int z)).

(** One lowercase hexadecimal digit. *)
Definition hex_digit (d : Z) : Z := if d <? 10 then 48 + d else 87 + d.

(** [%0<width>x]: the [width] low hexadecimal digits of [z]. *)
Fixpoint hex_fixed (width : nat) (z : Z) : str :=
  match width with
  | O => []
  | S w => hex_fixed w (z / 16) ++ [hex_digit (z mod 16)]
  end.

(* ------------------------------------------------------------------ *)
(** ** [str] methods *)

(** [s.startswith(prefix)]. *)
Fixpoint startswith (s prefix : str) {struct prefix} : bool :=
  match prefix, s with
  | [], _ => true
  | p :: prefix', c :: s' => (c =? p) && startswith s' prefix'
  | _ :: _, [] => false
  end.

(** [needle in haystack]: [needle] occurs at some position of [haystack]. *)
Fixpoint contains (needle haystack : str) : bool :=
  startswith haystack needle ||
  match haystack with
  | [] => false
  | _ :: h' => contains needle h'
  end.

(** [s.split(sep)] for a non-empty [sep]: [skip] counts the characters of a
    separator just matched that are still to be passed over, [cur] holds
    the current field in reverse. *)
Fixpoint split_from (sep s : str) (skip : nat) (cur : str) : list str :=
  match s with
  | [] => [rev cur]
  | c :: s' =>
      match skip with
      | S k => split_from sep s' k cur
      | O =>
          if startswith s sep
          then rev cur :: split_from sep s' (pred (List.length sep)) []
          else split_from sep s' O (c :: cur)
      end
  end.

Definition split (s sep : str) : list str := split_from sep s O [].

(** [sep.join(parts)]. *)
Fixpoint join (sep : str) (parts : list str) : str :=
  match parts with
  | [] => []
  | [p] => p
  | p :: rest => p ++ sep ++ join sep rest
  end.

(** The length of the longest prefix of [s] whose characters satisfy [p]. *)
Fixpoint span_len (p : Z -> bool) (s : str) : Z :=
  match s with
  | c :: s' => if p c then 1 + span_len p s' else 0
  | [] => 0
  end.

(* ------------------------------------------------------------------ *)
(** ** [str.encode()] and [bytes.decode()]: UTF-8, errors='strict' *)

Definition is_surrogate (c : Z) : bool := (0xD800 <=? c) && (c <=? 0xDFFF).

(** [s.encode()]. A lone surrogate cannot be encoded; the exception covers
    the whole run of surrogates that starts there. A number outside
    [range(0x110000)] is not a code point at all ([chr] refuses it). *)
Fixpoint utf8_encode_from (object s : str) (pos : Z) : result bytes :=
  match s with
  | [] => Ok []
  | c :: s' =>
      if (c <? 0) || (0x110000 <=? c) then
        Raise (ValueError (lit "chr() arg not in range(0x110000)"))
      else if c <? 0x80 then
        r <- utf8_encode_from object s' (pos + 1) ;; Ok (c :: r)
      else if c <? 0x800 then
        r <- utf8_encode_from object s' (pos + 1) ;;
        Ok (0xC0 + c / 64 :: 0x80 + c mod 64 :: r)
      else if is_surrogate c then
        Raise (UnicodeEncodeError (lit "utf-8") object pos
                 (pos + span_len is_surrogate s) (lit "surrogates not allowed"))
      else if c <? 0x10000 then
        r <- utf8_encode_from object s' (pos + 1) ;;
        Ok (0xE0 + c / 4096 :: 0x80 + (c / 64) mod 64 :: 0x80 + c mod 64 :: r)
      else
        r <- utf8_encode_from object s' (pos + 1) ;;
        Ok (0xF0 + c / 262144 :: 0x80 + (c / 4096) mod 64
              :: 0x80 + (c / 64) mod 64 :: 0x80 + c mod 64 :: r)
  end.

Definition utf8_encode (s : str) : result bytes := utf8_encode_from s s 0.

Definition is_continuation (b : Z) : bool := (0x80 <=? b) && (b <? 0xC0).

Definition decode_error (object : bytes) (start stop : Z) (reason : string)
  : exn :=
  UnicodeDecodeError (lit "utf-8") object start stop (lit reason).

(** [b.decode()]: the strict UTF-8 decoder. Overlong forms, surrogates and
    values above U+10FFFF are refused at the second byte; a sequence cut
    short by the end of the input is "unexpected end of data". *)
Fixpoint utf8_decode_from (object b : bytes) (pos : Z) : result str :=
  match b with
  | [] => Ok []
  | ch :: r1 =>
      if (0 <=? ch) && (ch <? 0x80) then
        s <- utf8_decode_from object r1 (pos + 1) ;; Ok (ch :: s)
      else if ch <? 0xC2 then
        Raise (decode_error object pos (pos + 1) "invalid start byte")
      else if ch <? 0xE0 then
        match r1 with
        | [] => Raise (decode_error object pos (pos + 1) "unexpected end of data")
        | ch2 :: r2 =>
            if negb (is_continuation ch2) then
              Raise (decode_error object pos (pos + 1) "invalid continuation byte")
            else
              s <- utf8_decode_from object r2 (pos + 2) ;;
              Ok ((ch - 0xC0) * 64 + (ch2 - 0x80) :: s)
        end
      else if ch <? 0xF0 then
        match r1 with
        | [] => Raise (decode_error object pos (pos + 1) "unexpected end of data")
        | ch2 :: r2 =>
            if negb (is_continuation ch2)
               || (if ch2 <? 0xA0 then ch =? 0xE0 else ch =? 0xED) then
              Raise (decode_error object pos (pos + 1) "invalid continuation byte")
            else
              match r2 with
              | [] =>
                  Raise (decode_error object pos (pos + 2) "unexpected end of data")
              | ch3 :: r3 =>
                  if negb (is_continuation ch3) then
                    Raise (decode_error object pos (pos + 2)
                             "invalid continuation byte")
                  else
                    s <- utf8_decode_from object r3 (pos + 3) ;;
                    Ok ((ch - 0xE0) * 4096 + (ch2 - 0x80) * 64 + (ch3 - 0x80) :: s)
              end
        end
      else if ch <? 0xF5 then
        match r1 with
        | [] => Raise (decode_error object pos (pos + 1) "unexpected end of data")
        | ch2 :: r2 =>
            if negb (is_continuation ch2)
               || (if ch2 <? 0x90 then ch =? 0xF0 else ch =? 0xF4) then
              Raise (decode_error object pos (pos + 1) "invalid continuation byte")
            else
              match r2 with
              | [] =>
                  Raise (decode_error object pos (pos + 2) "unexpected end of data")
              | ch3 :: r3 =>
                  if negb (is_continuation ch3) then
                    Raise (decode_error object pos (pos + 2)
                             "invalid continuation byte")
                  else
                    match r3 with
                    | [] =>
                        Raise (decode_error object pos (pos + 3)
                                 "unexpected end of data")
                    | ch4 :: r4 =>
                        if negb (is_continuation ch4) then
                          Raise (decode_error object pos (pos + 3)
                                   "invalid continuation byte")
                        else
                          s <- utf8_decode_from object r4 (pos + 4) ;;
                          Ok ((ch - 0xF0) * 262144 + (ch2 - 0x80) * 4096
                              + (ch3 - 0x80) * 64 + (ch4 - 0x80) :: s)
                    end
              end
        end
      else
        Raise (decode_error object pos (pos + 1) "invalid start byte")
  end.

Definition utf8_decode (b : bytes) : result str := utf8_decode_from b b 0.

(** [s.encode('ascii')]: the exception covers the run of non-ASCII
    characters that starts at the first one. *)
Definition is_ascii (c : Z) : bool := (0 <=? c) && (c <? 128).

Fixpoint ascii_encode_from (object s : str) (pos : Z) : result bytes :=
  match s with
  | [] => Ok []
  | c :: s' =>
      if is_ascii c then
        r <- ascii_encode_from object s' (pos + 1) ;; Ok (c :: r)
      else
        Raise (UnicodeEncodeError (lit "ascii") object pos
                 (pos + span_len (fun x => negb (is_ascii x)) s)
                 (lit "ordinal not in range(128)"))
  end.

Definition ascii_encode (s : str) : result bytes := ascii_encode_from s s 0.

(* ------------------------------------------------------------------ *)
(** ** [str(e)] *)

(** The escape under which [UnicodeEncodeError.__str__] shows a character. *)
Definition escape_char (c : Z) : str :=
  if c <=? 0xFF then lit "\x" ++ hex_fixed 2 c
  else if c <=? 0xFFFF then lit "\u" ++ hex_fixed 4 c
  else lit "\U" ++ hex_fixed 8 c.

Definition exn_str (e : exn) : str :=
  match e with
  | ValueError msg => msg
  | OverflowError msg => msg
  | IndexError msg => msg
  | binascii_Error msg => msg
  | UnicodeEncodeError encoding object start stop reason =>
      if stop =? start + 1 then
        lit "'" ++ encoding ++ lit "' codec can't encode character '"
          ++ escape_char (nth (Z.to_nat start) object 0)
          ++ lit "' in position " ++ str_of_int start ++ lit ": " ++ reason
      else
        lit "'" ++ encoding ++ lit "' codec can't encode characters in position "
          ++ str_of_int start ++ lit "-" ++ str_of_int (stop - 1)
          ++ lit ": " ++ reason
  | UnicodeDecodeError encoding object start stop reason =>
      if stop =? start + 1 then
        lit "'" ++ encoding ++ lit "' codec can't decode byte 0x"
          ++ hex_fixed 2 (nth (Z.to_nat start) object 0)
          ++ lit " in position " ++ str_of_int start ++ lit ": " ++ reason
      else
        lit "'" ++ encoding ++ lit "' codec can't decode bytes in position "
          ++ str_of_int start ++ lit "-" ++ str_of_int (stop - 1)
          ++ lit ": " ++ reason
  end.

(* ------------------------------------------------------------------ *)
(** ** [float]: conversion to [int] and [repr] *)

(** [int(x)]: the integer part of a finite [x], towards zero; [x] is
    [(-1)^s * m * 2^e] with [m] and [e] as [Prim2SF] gives them. *)
Definition int_of_float (x : float) : result Z :=
  match Prim2SF x with
  | S754_zero _ => Ok 0
  | S754_finite s m e =>
      let magnitude :=
        if 0 <=? e then Z.pos m * 2 ^ e else Z.pos m / 2 ^ (- e) in
      Ok (if s then - magnitude else magnitude)
  | S754_infinity _ =>
      Raise (OverflowError (lit "cannot convert float infinity to integer"))
  | S754_nan => Raise (ValueError (lit "cannot convert float NaN to integer"))
  end.

(** The decimal digits of [repr(x)] for [x = m * 2^e > 0]: the shortest
    decimal [d * 10^p] that reads back as [x], and among these the one
    nearest to [x]. Values are kept as numerators over [2^(e-2)]: [x] is
    [4m], the midpoint to the float above is [4m+2], the one to the float
    below is [4m-2], or [4m-1] where the exponent changes. The midpoints
    themselves read back as [x] when [m] is even. *)
Definition digits_at (m e p : Z) : option Z :=
  let a := 10 ^ Z.max p 0 * 2 ^ Z.max (2 - e) 0 in
  let b := 10 ^ Z.max (- p) 0 * 2 ^ Z.max (e - 2) 0 in
  let x := 4 * m * b in
  let hi := (4 * m + 2) * b in
  let lo := (if (m =? 2 ^ 52) && (-1074 <? e) then 4 * m - 1 else 4 * m - 2) * b in
  let closed := Z.even m in
  let d_min := if closed then (lo + a - 1) / a else lo / a + 1 in
  let d_max := if closed then hi / a else (hi + a - 1) / a - 1 in
  if d_min <=? d_max then
    let q := x / a in
    let r := x mod a in
    let nearest :=
      if 2 * r <? a then q
      else if a <? 2 * r then q + 1
      else if Z.even q then q else q + 1 in
    Some (Z.max d_min (Z.min d_max nearest))
  else None.

Fixpoint shortest_from (fuel : nat) (m e p : Z) : Z * Z :=
  match digits_at m e p with
  | Some d => (d, p)
  | None =>
      match fuel with
      | O => (0, 0)
      | S fuel' => shortest_from fuel' m e (p - 1)
      end
  end.

Definition shortest_digits (m e : Z) : Z * Z :=
  shortest_from 60 m e ((e + 53) * 30103 / 100000 + 2).

Definition zeros (n : Z) : str := repeat 48 (Z.to_nat n).

(** The 'r' format: exponent form when the decimal point would fall more
    than 16 digits to the right or 4 or more zeros to the left. *)
Definition format_repr (d p : Z) : str :=
  let ds := str_of_int d in
  let n := Z.of_nat (List.length ds) in
  let decpt := n + p in
  if (decpt <=? -4) || (16 <? decpt) then
    let ex := decpt - 1 in
    let mantissa :=
      match ds with
      | [] => []
      | [c] => [c]
      | c :: more => c :: 46 :: more
      end in
    let ex_digits := str_of_int (Z.abs ex) in
    mantissa ++ lit "e" ++ (if ex <? 0 then lit "-" else lit "+")
      ++ (if Z.abs ex <? 10 then lit "0" else []) ++ ex_digits
  else if decpt <=? 0 then
    lit "0." ++ zeros (- decpt) ++ ds
  else if n <=? decpt then
    ds ++ zeros (decpt - n) ++ lit ".0"
  else
    firstn (Z.to_nat decpt) ds ++ lit "." ++ skipn (Z.to_nat decpt) ds.

(** [repr(x)], which is also [str(x)] and what an f-string field shows. *)
Definition float_repr (x : float) : str :=
  match Prim2SF x with
  | S754_nan => lit "nan"
  | S754_infinity s => if s then lit "-inf" else lit "inf"
  | S754_zero s => if s then lit "-0.0" else lit "0.0"
  | S754_finite s m e =>
      let '(d, p) := shortest_digits (Z.pos m) e in
      (if s then lit "-" else []) ++ format_repr d p
  end.

(* ------------------------------------------------------------------ *)
(** ** Dynamically typed values and [dict] *)

(** The scalar values that occur as tool arguments and in result
    dictionaries. *)
Inductive pyvalue : Type :=
| PyBool (b : bool)
| PyInt (z : Z)
| PyFloat (x : float)
| PyStr (s : str).

(** What an f-string replacement field [{v}] shows. *)
Definition format_value (v : pyvalue) : str :=
  match v with
  | PyBool b => if b then lit "True" else lit "False"
  | PyInt z => str_of_int z
  | PyFloat x => float_repr x
  | PyStr s => s
  end.

(** A [dict] keeps its items in insertion order. *)
Definition dict := list (str * pyvalue).

Fixpoint dict_get (d : dict) (k : str) : option pyvalue :=
  match d with
  | [] => None
  | (k', v) :: d' => if str_eqb k' k then Some v else dict_get d' k
  end.

(** [d[k] = v]: replaces the value of an existing key in place, appends a
    new key at the end. *)
Fixpoint dict_set (d : dict) (k : str) (v : pyvalue) : dict :=
  match d with
  | [] => [(k, v)]
  | (k', v') :: d' =>
      if str_eqb k' k then (k', v) :: d' else (k', v') :: dict_set d' k v
  end.

(* ================================================================== *)
(** * The [base64] module *)
(* ================================================================== *)

Module base64.

(** The standard alphabet: a 6-bit value to its character and back. *)
Definition b2a (v : Z) : Z :=
  if v <? 26 then 65 + v
  else if v <? 52 then 71 + v
  else if v <? 62 then v - 4
  else if v =? 62 then 43
  else 47.

Definition a2b (c : Z) : option Z :=
  if (65 <=? c) && (c <=? 90) then Some (c - 65)
  else if (97 <=? c) && (c <=? 122) then Some (c - 71)
  else if (48 <=? c) && (c <=? 57) then Some (c + 4)
  else if c =? 43 then Some 62
  else if c =? 47 then Some 63
  else None.

(** The padding character [=]. *)
Definition pad : Z := 61.

(** [base64.b64encode(b)]: three octets become four characters; a last
    group of one or two octets is completed with [=]. *)
Fixpoint b64encode (b : bytes) : bytes :=
  match b with
  | [] => []
  | [b0] => [b2a (b0 / 4); b2a (b0 mod 4 * 16); pad; pad]
  | [b0; b1] =>
      [b2a (b0 / 4); b2a (b0 mod 4 * 16 + b1 / 16); b2a (b1 mod 16 * 4); pad]
  | b0 :: b1 :: b2 :: rest =>
      b2a (b0 / 4) :: b2a (b0 mod 4 * 16 + b1 / 16)
        :: b2a (b1 mod 16 * 4 + b2 / 64) :: b2a (b2 mod 64) :: b64encode rest
  end.

(** [binascii.a2b_base64(b)] without strict mode, character by
    character. [quad_pos] is the position in the current group of four,
    [leftchar] the bits not yet written, [pads] the number of [=] seen
    since the last alphabet character, [out] the octets written so far,
    last first. Characters outside the alphabet are skipped; a [=] that
    completes a group ends the decoding, whatever follows. *)
Fixpoint a2b_loop (s : bytes) (quad_pos : nat) (leftchar pads : Z) (out : bytes)
  : result bytes :=
  match s with
  | [] =>
      match quad_pos with
      | O => Ok (rev out)
      | 1%nat =>
          Raise (binascii_Error
                   (lit "Invalid base64-encoded string: number of data characters ("
                      ++ str_of_int (Z.of_nat (List.length out) / 3 * 4 + 1)
                      ++ lit ") cannot be 1 more than a multiple of 4"))
      | _ => Raise (binascii_Error (lit "Incorrect padding"))
      end
  | c :: s' =>
      if c =? pad then
        if (2 <=? quad_pos)%nat then
          if 4 <=? Z.of_nat quad_pos + (pads + 1) then Ok (rev out)
          else a2b_loop s' quad_pos leftchar (pads + 1) out
        else a2b_loop s' quad_pos leftchar pads out
      else
        match a2b c with
        | None => a2b_loop s' quad_pos leftchar pads out
        | Some v =>
            match quad_pos with
            | O => a2b_loop s' 1%nat v 0 out
            | 1%nat =>
                a2b_loop s' 2%nat (v mod 16) 0 (leftchar * 4 + v / 16 :: out)
            | 2%nat =>
                a2b_loop s' 3%nat (v mod 4) 0 (leftchar * 16 + v / 4 :: out)
            | _ => a2b_loop s' O 0 0 (leftchar * 64 + v :: out)
            end
        end
  end.

Definition a2b_base64 (b : bytes) : result bytes := a2b_loop b O 0 0 [].

(** [base64.b64decode(s)] for a [str] argument: the string must be ASCII. *)
Definition b64decode (s : str) : result bytes :=
  b <- try_except (ascii_encode s)
         (fun _ => Raise (ValueError
                      (lit "string argument should contain only ASCII characters"))) ;;
  a2b_base64 b.

End base64.

(* ================================================================== *)
(** * The [hashlib] module: MD5 and SHA-256 *)
(* ================================================================== *)

Module hashlib.

Definition add32 (a b : Z) : Z := (a + b) mod 2 ^ 32.
Definition not32 (a : Z) : Z := Z.lxor a 0xFFFFFFFF.
Definition rotl32 (x n : Z) : Z :=
  Z.lor (Z.shiftl x n mod 2 ^ 32) (Z.shiftr x (32 - n)).
Definition rotr32 (x n : Z) : Z :=
  Z.lor (Z.shiftr x n) (Z.shiftl x (32 - n) mod 2 ^ 32).

Definition word_at (ws : list Z) (i : Z) : Z := nth (Z.to_nat i) ws 0.

(** [n] octets of [z], least significant first or most significant first. *)
Fixpoint le_bytes (n : nat) (z : Z) : bytes :=
  match n with
  | O => []
  | S n' => z mod 256 :: le_bytes n' (z / 256)
  end.
Definition be_bytes (n : nat) (z : Z) : bytes := rev (le_bytes n z).

Fixpoint le_word (b : bytes) : Z :=
  match b with
  | [] => 0
  | x :: b' => x + 256 * le_word b'
  end.
Definition be_word (b : bytes) : Z := le_word (rev b).

(** The message cut into pieces of [size] octets. *)
Fixpoint chunks (fuel size : nat) (b : bytes) : list bytes :=
  match fuel, b with
  | S fuel', _ :: _ => firstn size b :: chunks fuel' size (skipn size b)
  | _, _ => []
  end.

(** The padding of both functions: a [0x80] octet, zeros up to 56 modulo
    64, and the length of the message in bits on 8 octets. *)
Definition padded (length_bytes : Z -> bytes) (msg : bytes) : bytes :=
  let n := Z.of_nat (List.length msg) in
  msg ++ [0x80] ++ repeat 0 (Z.to_nat ((55 - n) mod 64)) ++ length_bytes (8 * n).

Definition blocks (length_bytes : Z -> bytes) (msg : bytes) : list bytes :=
  let p := padded length_bytes msg in
  chunks (List.length p) 64 p.

(** ** MD5 (RFC 1321) *)

Definition md5_K : list Z :=
  [ 0xd76aa478; 0xe8c7b756; 0x242070db; 0xc1bdceee;
    0xf57c0faf; 0x4787c62a; 0xa8304613; 0xfd469501;
    0x698098d8; 0x8b44f7af; 0xffff5bb1; 0x895cd7be;
    0x6b901122; 0xfd987193; 0xa679438e; 0x49b40821;
    0xf61e2562; 0xc040b340; 0x265e5a51; 0xe9b6c7aa;
    0xd62f105d; 0x02441453; 0xd8a1e681; 0xe7d3fbc8;
    0x21e1cde6; 0xc33707d6; 0xf4d50d87; 0x455a14ed;
    0xa9e3e905; 0xfcefa3f8; 0x676f02d9; 0x8d2a4c8a;
    0xfffa3942; 0x8771f681; 0x6d9d6122; 0xfde5380c;
    0xa4beea44; 0x4bdecfa9; 0xf6bb4b60; 0xbebfbc70;
    0x289b7ec6; 0xeaa127fa; 0xd4ef3085; 0x04881d05;
    0xd9d4d039; 0xe6db99e5; 0x1fa27cf8; 0xc4ac5665;
    0xf4292244; 0x432aff97; 0xab9423a7; 0xfc93a039;
    0x655b59c3; 0x8f0ccc92; 0xffeff47d; 0x85845dd1;
    0x6fa87e4f; 0xfe2ce6e0; 0xa3014314; 0x4e0811a1;
    0xf7537e82; 0xbd3af235; 0x2ad7d2bb; 0xeb86d391 ].

Definition md5_shift : list Z :=
  [ 7; 12; 17; 22; 7; 12; 17; 22; 7; 12; 17; 22; 7; 12; 17; 22;
    5; 9; 14; 20; 5; 9; 14; 20; 5; 9; 14; 20; 5; 9; 14; 20;
    4; 11; 16; 23; 4; 11; 16; 23; 4; 11; 16; 23; 4; 11; 16; 23;
    6; 10; 15; 21; 6; 10; 15; 21; 6; 10; 15; 21; 6; 10; 15; 21 ].

Definition md5_state : Type := Z * Z * Z * Z.

Definition md5_init : md5_state :=
  (0x67452301, 0xefcdab89, 0x98badcfe, 0x10325476).

Definition md5_step (M : list Z) (st : md5_state) (i : Z) : md5_state :=
  let '(A, B, C, D) := st in
  let '(F, g) :=
    if i <? 16 then (Z.lor (Z.land B C) (Z.land (not32 B) D), i)
    else if i <? 32 then
      (Z.lor (Z.land D B) (Z.land (not32 D) C), (5 * i + 1) mod 16)
    else if i <? 48 then (Z.lxor B (Z.lxor C D), (3 * i + 5) mod 16)
    else (Z.lxor C (Z.lor B (not32 D)), (7 * i) mod 16) in
  let F' := add32 (add32 (add32 F A) (word_at md5_K i)) (word_at M g) in
  (D, add32 B (rotl32 F' (word_at md5_shift i)), B, C).

Definition md5_block (st : md5_state) (block : bytes) : md5_state :=
  let M := map le_word (chunks 16 4 block) in
  let '(A, B, C, D) := st in
  let '(A', B', C', D') :=
    fold_left (md5_step M) (map Z.of_nat (seq 0 64)) st in
  (add32 A A', add32 B B', add32 C C', add32 D D').

(** [hashlib.md5(msg).digest()]. *)
Definition md5 (msg : bytes) : bytes :=
  let '(A, B, C, D) := fold_left md5_block (blocks (le_bytes 8) msg) md5_init in
  le_bytes 4 A ++ le_bytes 4 B ++ le_bytes 4 C ++ le_bytes 4 D.

(** ** SHA-256 (FIPS 180-4) *)

(** The first 64 primes. *)
Definition primes : list Z :=
  [ 2; 3; 5; 7; 11; 13; 17; 19; 23; 29; 31; 37; 41; 43; 47; 53; 59; 61; 67; 71;
    73; 79; 83; 89; 97; 101; 103; 107; 109; 113; 127; 131; 137; 139; 149; 151;
    157; 163; 167; 173; 179; 181; 191; 193; 197; 199; 211; 223; 227; 229; 233;
    239; 241; 251; 257; 263; 269; 271; 277; 281; 283; 293; 307; 311 ].

(** The integer cube root of [x] below [2^n], found bit by bit. *)
Fixpoint cube_root (n : nat) (x found : Z) : Z :=
  match n with
  | O => found
  | S k =>
      let candidate := found + 2 ^ Z.of_nat k in
      if candidate * candidate * candidate <=? x
      then cube_root k x candidate
      else cube_root k x found
  end.

(** The round constants: the first 32 bits of the fractional part of the
    cube root of each prime. The initial state: the same of the square
    root of the first eight. *)
Definition sha256_K : list Z :=
  Eval vm_compute in map (fun p => cube_root 36 (p * 2 ^ 96) 0 mod 2 ^ 32) primes.

Definition sha256_init : list Z :=
  Eval vm_compute in map (fun p => Z.sqrt (p * 2 ^ 64) mod 2 ^ 32) (firstn 8 primes).

(** The message schedule: words 16 to 63 from the sixteen before. *)
Definition sha256_extend (W : list Z) (i : Z) : list Z :=
  let w15 := word_at W (i - 15) in
  let w2 := word_at W (i - 2) in
  let s0 := Z.lxor (rotr32 w15 7) (Z.lxor (rotr32 w15 18) (Z.shiftr w15 3)) in
  let s1 := Z.lxor (rotr32 w2 17) (Z.lxor (rotr32 w2 19) (Z.shiftr w2 10)) in
  W ++ [add32 (add32 (add32 (word_at W (i - 16)) s0) (word_at W (i - 7))) s1].

Definition sha256_round (W : list Z) (st : list Z) (i : Z) : list Z :=
  match st with
  | [a; b; c; d; e; f; g; h] =>
      let S1 := Z.lxor (rotr32 e 6) (Z.lxor (rotr32 e 11) (rotr32 e 25)) in
      let ch := Z.lxor (Z.land e f) (Z.land (not32 e) g) in
      let t1 :=
        add32 (add32 (add32 (add32 h S1) ch) (word_at sha256_K i)) (word_at W i) in
      let S0 := Z.lxor (rotr32 a 2) (Z.lxor (rotr32 a 13) (rotr32 a 22)) in
      let maj := Z.lxor (Z.land a b) (Z.lxor (Z.land a c) (Z.land b c)) in
      let t2 := add32 S0 maj in
      [add32 t1 t2; a; b; c; add32 d t1; e; f; g]
  | _ => st
  end.

Definition sha256_block (st : list Z) (block : bytes) : list Z :=
  let W16 := map be_word (chunks 16 4 block) in
  let W := fold_left sha256_extend (map Z.of_nat (seq 16 48)) W16 in
  let st' := fold_left (sha256_round W) (map Z.of_nat (seq 0 64)) st in
  map (fun p => add32 (fst p) (snd p)) (combine st st').

(** [hashlib.sha256(msg).digest()]. *)
Definition sha256 (msg : bytes) : bytes :=
  flat_map (be_bytes 4) (fold_left sha256_block (blocks (be_bytes 8) msg) sha256_init).

(** [.hexdigest()]: two lowercase hexadecimal digits per octet. *)
Definition hexdigest (digest : bytes) : str := flat_map (hex_fixed 2) digest.

End hashlib.

(* ================================================================== *)
(** * The tools of [server.py] *)
(* ================================================================== *)

(** [if s:] for a [str]: the empty string is false. *)
Definition truthy (s : str) : bool :=
  match s with
  | [] => false
  | _ :: _ => true
  end.

(** ** Payme *)

Definition payme_generate_checkout_url
    (merchant_id : str) (amount : float) (order_id return_url : str)
    (is_production : bool) : result dict :=
  (* Convert UZS to tiyin (1 UZS = 100 tiyin) *)
  amount_in_tiyin <- int_of_float (amount * 100)%float ;;
  (* Create account parameter *)
  let account := lit "order_id=" ++ order_id in
  (* Build parameter string *)
  let params :=
    lit "m=" ++ merchant_id ++ lit ";ac." ++ account
      ++ lit ";a=" ++ str_of_int amount_in_tiyin ++ lit ";c=" ++ return_url in
  (* Base64 encode *)
  params_bytes <- utf8_encode params ;;
  encoded_params <- utf8_decode (base64.b64encode params_bytes) ;;
  (* Determine environment *)
  let checkout_base_url :=
    if is_production
    then lit "https://checkout.paycom.uz"
    else lit "https://checkout.test.paycom.uz" in
  let payment_url := checkout_base_url ++ lit "/" ++ encoded_params in
  Ok [ (lit "success", PyBool true);
       (lit "payment_url", PyStr payment_url);
       (lit "environment",
        PyStr (if is_production then lit "production" else lit "test"));
       (lit "amount_uzs", PyFloat amount);
       (lit "amount_tiyin", PyInt amount_in_tiyin);
       (lit "order_id", PyStr order_id);
       (lit "encoded_params", PyStr encoded_params);
       (lit "instructions",
        PyStr (lit "Redirect user to this URL to complete payment")) ].

Definition payme_verify_webhook_auth
    (authorization_header merchant_key : str) : result dict :=
  try_except
    ((* Extract token from "Basic <token>" *)
     if negb (startswith authorization_header (lit "Basic ")) then
       Ok [ (lit "valid", PyBool false);
            (lit "reason",
             PyStr (lit "Authorization must use Basic authentication")) ]
     else
       token <- getitem (split authorization_header (lit " ")) 1 ;;
       raw <- base64.b64decode token ;;
       decoded <- utf8_decode raw ;;
       (* Check if merchant key is present *)
       let is_valid := contains merchant_key decoded in
       Ok [ (lit "valid", PyBool is_valid);
            (lit "decoded_auth",
             PyStr (if is_valid then decoded else lit "[hidden]"));
            (lit "message",
             PyStr (if is_valid
                    then lit "Valid Payme webhook authentication"
                    else lit "Invalid merchant key")) ])
    (fun e =>
       Ok [ (lit "valid", PyBool false);
            (lit "reason",
             PyStr (lit "Error verifying authorization: " ++ exn_str e)) ]).

(** ** Click *)

(** [amount] is annotated [float]; the function only formats it, so any
    scalar the caller passes goes through. [merchant_user_id] is an
    [Optional[str]]. *)
Definition click_generate_invoice_url
    (service_id merchant_id : str) (amount : pyvalue)
    (transaction_param return_url : str) (merchant_user_id : option str)
    (is_production : bool) : dict :=
  (* Click API endpoint *)
  let base_url :=
    if is_production
    then lit "https://my.click.uz/services/pay"
    else lit "https://my.click.uz/services/pay" (* same URL for both *) in
  (* Build URL parameters *)
  let params : dict :=
    [ (lit "service_id", PyStr service_id);
      (lit "merchant_id", PyStr merchant_id);
      (lit "amount", amount);
      (lit "transaction_param", PyStr transaction_param);
      (lit "return_url", PyStr return_url) ] in
  let params :=
    match merchant_user_id with
    | Some user =>
        if truthy user
        then dict_set params (lit "merchant_user_id") (PyStr user)
        else params
    | None => params
    end in
  (* Create query string *)
  let query_string :=
    join (lit "&")
      (map (fun item => fst item ++ lit "=" ++ format_value (snd item)) params) in
  let invoice_url := base_url ++ lit "?" ++ query_string in
  [ (lit "success", PyBool true);
    (lit "invoice_url", PyStr invoice_url);
    (lit "environment",
     PyStr (if is_production then lit "production" else lit "test"));
    (lit "amount", amount);
    (lit "transaction_param", PyStr transaction_param);
    (lit "instructions",
     PyStr (lit "Redirect user to this URL to complete Click payment")) ].

Definition click_verify_webhook_signature
    (click_trans_id service_id secret_key merchant_trans_id : str)
    (amount : pyvalue) (action : Z) (sign_time received_sign_string : str)
    : result dict :=
  (* Build signature string according to Click specification *)
  let sign_string :=
    click_trans_id ++ service_id ++ secret_key ++ merchant_trans_id
      ++ format_value amount ++ str_of_int action ++ sign_time in
  (* Generate MD5 hash *)
  sign_bytes <- utf8_encode sign_string ;;
  let expected_signature := hashlib.hexdigest (hashlib.md5 sign_bytes) in
  let is_valid := str_eqb expected_signature received_sign_string in
  Ok [ (lit "valid", PyBool is_valid);
       (lit "expected_signature", PyStr expected_signature);
       (lit "received_signature", PyStr received_sign_string);
       (lit "message",
        PyStr (if is_valid
               then lit "Signature is valid"
               else lit "Invalid signature - potential security issue")) ].

(** ** Octo *)

Definition octo_verify_webhook_signature
    (octo_payment_uuid status received_signature secret_key : str)
    : result dict :=
  (* Generate expected signature *)
  let sign_string := octo_payment_uuid ++ status ++ secret_key in
  sign_bytes <- utf8_encode sign_string ;;
  let expected_signature := hashlib.hexdigest (hashlib.sha256 sign_bytes) in
  let is_valid := str_eqb expected_signature received_signature in
  Ok [ (lit "valid", PyBool is_valid);
       (lit "expected_signature", PyStr expected_signature);
       (lit "received_signature", PyStr received_signature);
       (lit "message",
        PyStr (if is_valid then lit "Valid Octo webhook" else lit "Invalid signature")) ].

(** A value of a result that may itself be a dictionary of scalars: the
    result of [octo_create_payment] holds two. *)
Inductive pyobject : Type :=
| Scalar (v : pyvalue)
| Dict (items : dict).

Fixpoint object_get (d : list (str * pyobject)) (k : str) : option pyobject :=
  match d with
  | [] => None
  | (k', v) :: d' => if str_eqb k' k then Some v else object_get d' k
  end.

(** [amount] is annotated [float] and only formatted, as in the Click
    tools. Nothing is sent: the function returns what a client would post. *)
Definition octo_create_payment
    (api_key secret_key : str) (amount : pyvalue)
    (transaction_id return_url : str) (auto_capture : bool) (currency : str)
    (is_production : bool) : result (list (str * pyobject)) :=
  (* Octo API endpoint *)
  let base_url :=
    if is_production
    then lit "https://api.octo.uz/v1/payment/init"
    else lit "https://api.test.octo.uz/v1/payment/init" in
  (* Generate signature *)
  let sign_string :=
    transaction_id ++ format_value amount ++ currency ++ secret_key in
  sign_bytes <- utf8_encode sign_string ;;
  let signature := hashlib.hexdigest (hashlib.sha256 sign_bytes) in
  let payment_data : dict :=
    [ (lit "api_key", PyStr api_key);
      (lit "amount", amount);
      (lit "currency", PyStr currency);
      (lit "transaction_id", PyStr transaction_id);
      (lit "return_url", PyStr return_url);
      (lit "auto_capture", PyBool auto_capture);
      (lit "signature", PyStr signature) ] in
  Ok [ (lit "success", Scalar (PyBool true));
       (lit "api_endpoint", Scalar (PyStr base_url));
       (lit "payment_data", Dict payment_data);
       (lit "environment",
        Scalar (PyStr (if is_production then lit "production" else lit "test")));
       (lit "instructions",
        Scalar (PyStr (lit "POST this data to the API endpoint to create payment")));
       (lit "expected_response",
        Dict [ (lit "octo_payment_UUID", PyStr (lit "unique_uuid"));
               (lit "shop_transaction_id", PyStr transaction_id);
               (lit "status", PyStr (lit "created"));
               (lit "pay_url",
                PyStr (lit "https://payment.octo.uz/checkout/unique_uuid")) ]) ].

(* ================================================================== *)
(** * Notions used to state the properties *)
(* ================================================================== *)

(** [round(x)] of the built-in: to the nearest integer, a tie to the even
    one. The specification converts an amount with [round(amount * 100)]. *)
Definition round_float (x : float) : result Z :=
  match Prim2SF x with
  | S754_zero _ => Ok 0
  | S754_finite s m e =>
      let magnitude :=
        if 0 <=? e then Z.pos m * 2 ^ e
        else
          let q := Z.pos m / 2 ^ (- e) in
          let r := Z.pos m mod 2 ^ (- e) in
          if 2 * r <? 2 ^ (- e) then q
          else if 2 ^ (- e) <? 2 * r then q + 1
          else if Z.even q then q else q + 1 in
      Ok (if s then - magnitude else magnitude)
  | S754_infinity _ =>
      Raise (OverflowError (lit "cannot convert float infinity to integer"))
  | S754_nan => Raise (ValueError (lit "cannot convert float NaN to integer"))
  end.

(** The minor-unit amount as the specification words it. *)
Definition spec_amount_minor (amount : float) : result Z :=
  round_float (amount * 100)%float.

(** A float that is neither an infinity nor a NaN. *)
Definition float_is_finite (x : float) : bool :=
  match Prim2SF x with
  | S754_zero _ | S754_finite _ _ _ => true
  | S754_infinity _ | S754_nan => false
  end.

(** A finite float whose value is an integer. *)
Definition float_is_integral (x : float) : bool :=
  match Prim2SF x with
  | S754_zero _ => true
  | S754_finite _ m e => (0 <=? e) || (Z.pos m mod 2 ^ (- e) =? 0)
  | S754_infinity _ | S754_nan => false
  end.

(** A string that [encode()] accepts: code points only, no surrogate. *)
Definition encodable (s : str) : bool :=
  forallb (fun c => (0 <=? c) && (c <? 0x110000) && negb (is_surrogate c)) s.

(** [s] with the character at index [i] replaced by [c]. *)
Fixpoint replace_at (i : nat) (c : Z) (s : str) : str :=
  match s, i with
  | [], _ => []
  | _ :: s', O => c :: s'
  | x :: s', S i' => x :: replace_at i' c s'
  end.

(** [needle] occurs in [haystack]: some text before it, some after. *)
Definition substring (needle haystack : str) : Prop :=
  exists before after, haystack = before ++ needle ++ after.

(** The characters of a lowercase hexadecimal rendering. *)
Definition is_lower_hex (c : Z) : bool :=
  ((48 <=? c) && (c <=? 57)) || ((97 <=? c) && (c <=? 102)).

(** The parameter string of a Payme checkout as the specification writes
    it: [m=<merchant_id>;ac.order_id=<order_id>;a=<amount_minor>;c=<return_url>]. *)
Definition checkout_params (merchant_id order_id : str) (amount_minor : Z)
    (return_url : str) : str :=
  lit "m=" ++ merchant_id ++ lit ";ac.order_id=" ++ order_id
    ++ lit ";a=" ++ str_of_int amount_minor ++ lit ";c=" ++ return_url.

(** The dictionary of a checkout whose amount came to [amount_minor] minor
    units and whose parameter string was encoded as [encoded]. *)
Definition checkout_result (amount : float) (order_id : str)
    (is_production : bool) (amount_minor : Z) (encoded : str) : dict :=
  [ (lit "success", PyBool true);
    (lit "payment_url",
     PyStr ((if is_production
             then lit "https://checkout.paycom.uz"
             else lit "https://checkout.test.paycom.uz") ++ lit "/" ++ encoded));
    (lit "environment",
     PyStr (if is_production then lit "production" else lit "test"));
    (lit "amount_uzs", PyFloat amount);
    (lit "amount_tiyin", PyInt amount_minor);
    (lit "order_id", PyStr order_id);
    (lit "encoded_params", PyStr encoded);
    (lit "instructions",
     PyStr (lit "Redirect user to this URL to complete payment")) ].

(** The [valid] entry of a verification result, when the call returned one. *)
Definition result_valid (r : result dict) : option bool :=
  match r with
  | Ok d =>
      match dict_get d (lit "valid") with
      | Some (PyBool b) => Some b
      | _ => None
      end
  | Raise _ => None
  end.

(** The result of a Payme verification whose header decoded to [decoded]. *)
Definition auth_result (merchant_key decoded : str) : dict :=
  [ (lit "valid", PyBool (contains merchant_key decoded));
    (lit "decoded_auth",
     PyStr (if contains merchant_key decoded then decoded else lit "[hidden]"));
    (lit "message",
     PyStr (if contains merchant_key decoded
            then lit "Valid Payme webhook authentication"
            else lit "Invalid merchant key")) ].

(** The two shapes of a failed Payme verification. *)
Definition wrong_scheme_result : dict :=
  [ (lit "valid", PyBool false);
    (lit "reason", PyStr (lit "Authorization must use Basic authentication")) ].

Definition decode_error_result (e : exn) : dict :=
  [ (lit "valid", PyBool false);
    (lit "reason", PyStr (lit "Error verifying authorization: " ++ exn_str e)) ].

(** A float that is a NaN, an infinity. *)
Definition float_is_nan (x : float) : bool :=
  match Prim2SF x with
  | S754_nan => true
  | _ => false
  end.

Definition float_is_infinite (x : float) : bool :=
  match Prim2SF x with
  | S754_infinity _ => true
  | _ => false
  end.

(** An entry of the dictionary a call returned, if it returned one. *)
Definition result_field (r : result dict) (k : str) : option pyvalue :=
  match r with
  | Ok d => dict_get d k
  | Raise _ => None
  end.

(** The characters the Base64 decoder looks at: the alphabet and [=]. *)
Definition base64_significant (c : Z) : bool :=
  (c =? base64.pad) ||
  match base64.a2b c with
  | Some _ => true
  | None => false
  end.

(** The [signature] entry of the payload [octo_create_payment] returned. *)
Definition payload_signature (r : result (list (str * pyobject))) : option str :=
  match r with
  | Ok d =>
      match object_get d (lit "payment_data") with
      | Some (Dict payload) =>
          match dict_get payload (lit "signature") with
          | Some (PyStr s) => Some s
          | _ => None
          end
      | _ => None
      end
  | Raise _ => None
  end.

(* ================================================================== *)
(** * Lemmas about the runtime fragments *)
(* ================================================================== *)

Lemma bind_ok_inv {A B : Type} (r : result A) (k : A -> result B) (b : B) :
  bind r k = Ok b -> exists a, r = Ok a /\ k a = Ok b.
Proof.
  destruct r as [a | e]; simpl; intros H.
  - exists a. split; [reflexivity | exact H].
  - discriminate H.
Qed.

Lemma bind_ok_eq {A B : Type} (r : result A) (k : A -> result B) (a : A) :
  r = Ok a -> bind r k = k a.
Proof. intros ->. reflexivity. Qed.

(** ** Equality and search on [str] *)

Lemma str_eqb_refl (s : str) : str_eqb s s = true.
Proof.
  induction s as [| c s IH]; simpl.
  - reflexivity.
  - rewrite Z.eqb_refl. exact IH.
Qed.

Lemma str_eqb_eq (a b : str) : str_eqb a b = true <-> a = b.
Proof.
  split.
  - revert b. induction a as [| x a IH]; intros [| y b] H; simpl in H;
      try discriminate; try reflexivity.
    apply andb_true_iff in H. destruct H as [Hxy Hab].
    apply Z.eqb_eq in Hxy. apply IH in Hab. congruence.
  - intros ->. apply str_eqb_refl.
Qed.

Lemma str_eqb_neq (a b : str) : str_eqb a b = false <-> a <> b.
Proof.
  split.
  - intros H Heq. apply str_eqb_eq in Heq. congruence.
  - intros H. destruct (str_eqb a b) eqn:E; [| reflexivity].
    apply str_eqb_eq in E. contradiction.
Qed.

Lemma startswith_iff (s prefix : str) :
  startswith s prefix = true <-> exists rest, s = prefix ++ rest.
Proof.
  revert s. induction prefix as [| p prefix IH]; intros s; simpl.
  - split; [intros _; exists s; reflexivity | intros _; destruct s; reflexivity].
  - destruct s as [| c s].
    + split; [discriminate | intros [rest H]; discriminate H].
    + cbn [startswith]. rewrite andb_true_iff, Z.eqb_eq, IH. split.
      * intros [-> [rest ->]]. exists rest. reflexivity.
      * intros [rest H]. injection H as -> ->. split; [reflexivity |].
        exists rest. reflexivity.
Qed.

Lemma startswith_app (prefix rest : str) : startswith (prefix ++ rest) prefix = true.
Proof. apply startswith_iff. exists rest. reflexivity. Qed.

Lemma contains_empty (haystack : str) : contains [] haystack = true.
Proof. destruct haystack; reflexivity. Qed.

(** The [in] operator finds exactly the substrings. *)
Lemma contains_iff (needle haystack : str) :
  contains needle haystack = true <-> substring needle haystack.
Proof.
  unfold substring. induction haystack as [| c h IH].
  - cbn [contains]. rewrite orb_false_r, startswith_iff. split.
    + intros [rest H]. exists [], rest. exact H.
    + intros [before [after H]]. destruct before as [| x before].
      * exists after. exact H.
      * discriminate H.
  - cbn [contains]. rewrite orb_true_iff, startswith_iff, IH. split.
    + intros [[rest H] | [before [after H]]].
      * exists [], rest. exact H.
      * exists (c :: before), after. rewrite H. reflexivity.
    + intros [before [after H]]. destruct before as [| x before].
      * left. exists after. exact H.
      * right. injection H as _ H. exists before, after. exact H.
Qed.

(** ** [split] on a space *)

Lemma split_from_no_sep (t cur : str) :
  ~ In 32 t -> split_from [32] t O cur = [rev cur ++ t].
Proof.
  revert cur. induction t as [| c t IH]; intros cur Hno.
  - simpl. rewrite app_nil_r. reflexivity.
  - cbn [split_from startswith].
    destruct (Z.eqb_spec c 32) as [-> | Hc].
    + exfalso. apply Hno. left. reflexivity.
    + cbn [andb]. rewrite IH.
      * simpl. rewrite <- app_assoc. reflexivity.
      * intros Hin. apply Hno. right. exact Hin.
Qed.

(** The token of a header ["Basic <token>"] whose token has no space. *)
Lemma split_basic_token (t : str) :
  ~ In 32 t ->
  getitem (split (lit "Basic " ++ t) (lit " ")) 1 = Ok t.
Proof.
  intros Hno. unfold split. cbn.
  rewrite (split_from_no_sep t [] Hno). reflexivity.
Qed.

(** ** UTF-8 *)

(** Case analysis on the integer comparisons of a goal, closing the cases
    that the arithmetic of the context excludes. *)
Ltac absurd_arith := exfalso; Z.div_mod_to_equations; lia.

Ltac split_tests :=
  repeat (cbn [andb orb negb];
          match goal with
          | |- context [?a <? ?b] => destruct (Z.ltb_spec a b); try absurd_arith
          | |- context [?a <=? ?b] => destruct (Z.leb_spec a b); try absurd_arith
          | |- context [?a =? ?b] => destruct (Z.eqb_spec a b); try absurd_arith
          end);
  cbn [andb orb negb].

Lemma is_surrogate_false (c : Z) :
  is_surrogate c = false -> c < 0xD800 \/ 0xDFFF < c.
Proof.
  unfold is_surrogate. intros H. apply andb_false_iff in H.
  destruct H as [H | H]; [apply Z.leb_gt in H | apply Z.leb_gt in H]; lia.
Qed.

(** From [H : (x <- r ;; Ok v) = Ok b]: the value of [r], and [b] replaced
    by [v]. *)
Ltac ok_step H r Hr :=
  apply bind_ok_inv in H; destruct H as [r [Hr H]]; cbv beta in H;
  apply (f_equal (fun o => match o with Ok v => v | Raise _ => [] end)) in H;
  cbv beta iota in H; subst.

Ltac octets_ok IH :=
  repeat (apply Forall_cons; [unfold is_byte; Z.div_mod_to_equations; lia |]);
  eapply IH; eassumption.

(** What [encode()] returns is made of octets. *)
Lemma utf8_encode_from_bytes (s : str) :
  forall object pos b,
    utf8_encode_from object s pos = Ok b -> Forall is_byte b.
Proof.
  induction s as [| c s IH]; intros object pos b H; cbn [utf8_encode_from] in H.
  - injection H as <-. constructor.
  - destruct (Z.ltb_spec c 0); [discriminate H |].
    destruct (Z.leb_spec 0x110000 c); [discriminate H |].
    cbn [orb] in H.
    destruct (Z.ltb_spec c 0x80).
    { ok_step H r Hr.
      octets_ok IH. }
    destruct (Z.ltb_spec c 0x800).
    { ok_step H r Hr.
      octets_ok IH. }
    destruct (is_surrogate c); [discriminate H |].
    destruct (Z.ltb_spec c 0x10000).
    { ok_step H r Hr.
      octets_ok IH. }
    ok_step H r Hr.
    octets_ok IH.
Qed.

(** Decoding what [encode()] returned gives the string back. *)
Lemma utf8_decode_encode (s : str) :
  forall object pos b,
    utf8_encode_from object s pos = Ok b ->
    forall object' pos', utf8_decode_from object' b pos' = Ok s.
Proof.
  induction s as [| c s IH]; intros object pos b H object' pos';
    cbn [utf8_encode_from] in H.
  - injection H as <-. reflexivity.
  - destruct (Z.ltb_spec c 0); [discriminate H |].
    destruct (Z.leb_spec 0x110000 c); [discriminate H |].
    cbn [orb] in H.
    destruct (Z.ltb_spec c 0x80).
    { ok_step H r Hr.
      cbn [utf8_decode_from]. split_tests;
        rewrite (IH _ _ _ Hr); reflexivity. }
    destruct (Z.ltb_spec c 0x800).
    { ok_step H r Hr.
      cbn [utf8_decode_from]. unfold is_continuation. split_tests;
        rewrite (IH _ _ _ Hr); cbn [bind]; do 2 f_equal;
        Z.div_mod_to_equations; lia. }
    destruct (is_surrogate c) eqn:Hsur; [discriminate H |].
    apply is_surrogate_false in Hsur.
    destruct (Z.ltb_spec c 0x10000).
    { ok_step H r Hr.
      cbn [utf8_decode_from]. unfold is_continuation. split_tests;
        rewrite (IH _ _ _ Hr); cbn [bind]; do 2 f_equal;
        Z.div_mod_to_equations; lia. }
    ok_step H r Hr.
    cbn [utf8_decode_from]. unfold is_continuation. split_tests;
      rewrite (IH _ _ _ Hr); cbn [bind]; do 2 f_equal;
      Z.div_mod_to_equations; lia.
Qed.

(** ASCII text decodes to itself, and encodes to itself. *)
Lemma utf8_decode_ascii (b : bytes) :
  Forall (fun c => is_ascii c = true) b ->
  forall object pos, utf8_decode_from object b pos = Ok b.
Proof.
  induction 1 as [| c b Hc _ IH]; intros object pos.
  - reflexivity.
  - cbn [utf8_decode_from]. unfold is_ascii in Hc. rewrite Hc, IH. reflexivity.
Qed.

Lemma ascii_encode_ascii (s : str) :
  Forall (fun c => is_ascii c = true) s ->
  forall object pos, ascii_encode_from object s pos = Ok s.
Proof.
  induction 1 as [| c s Hc _ IH]; intros object pos.
  - reflexivity.
  - cbn [ascii_encode_from]. rewrite Hc, IH. reflexivity.
Qed.

(** A string without surrogates can be encoded. *)
Lemma encodable_utf8 (s : str) :
  encodable s = true ->
  forall object pos, exists b, utf8_encode_from object s pos = Ok b.
Proof.
  induction s as [| c s IH]; intros H object pos.
  - exists []. reflexivity.
  - cbn [encodable forallb] in H. apply andb_true_iff in H.
    destruct H as [Hc Hs]. apply andb_true_iff in Hc. destruct Hc as [Hc Hsur].
    apply andb_true_iff in Hc. destruct Hc as [H0 H1].
    apply Z.leb_le in H0. apply Z.ltb_lt in H1.
    apply negb_true_iff in Hsur.
    destruct (IH Hs object (pos + 1)) as [r Hr].
    cbn [utf8_encode_from]. rewrite Hsur, Hr. cbn [bind].
    destruct (Z.ltb_spec c 0); [lia |].
    destruct (Z.leb_spec 0x110000 c); [lia |]. cbn [orb].
    destruct (c <? 0x80); [eexists; reflexivity |].
    destruct (c <? 0x800); [eexists; reflexivity |].
    destruct (c <? 0x10000); eexists; reflexivity.
Qed.

Lemma encodable_app (a b : str) :
  encodable (a ++ b) = encodable a && encodable b.
Proof. unfold encodable. apply forallb_app. Qed.

Lemma lit_ascii (s : string) : Forall (fun c => 0 <= c < 256) (lit s).
Proof.
  unfold lit. induction s as [| a s IH]; cbn [list_ascii_of_string map].
  - constructor.
  - constructor; [| exact IH].
    pose proof (N_ascii_bounded a). lia.
Qed.

Lemma encodable_lit (s : string) : encodable (lit s) = true.
Proof.
  unfold encodable. apply forallb_forall. intros c Hc.
  pose proof (lit_ascii s) as Hall. rewrite Forall_forall in Hall.
  specialize (Hall c Hc). unfold is_surrogate.
  destruct (Z.leb_spec 0 c); [| lia].
  destruct (Z.ltb_spec c 0x110000); [| lia].
  destruct (Z.leb_spec 0xD800 c); [lia | reflexivity].
Qed.

(** ** Base64 *)

Lemma b2a_a2b (v : Z) : 0 <= v < 64 -> base64.a2b (base64.b2a v) = Some v.
Proof.
  intros Hv. unfold base64.b2a.
  split_tests; unfold base64.a2b; split_tests; try reflexivity; f_equal; lia.
Qed.

Lemma b2a_not_pad (v : Z) : 0 <= v < 64 -> (base64.b2a v =? base64.pad) = false.
Proof.
  intros Hv. unfold base64.b2a, base64.pad.
  destruct (Z.ltb_spec v 26); [apply Z.eqb_neq; lia |].
  destruct (Z.ltb_spec v 52); [apply Z.eqb_neq; lia |].
  destruct (Z.ltb_spec v 62); [apply Z.eqb_neq; lia |].
  destruct (v =? 62); reflexivity.
Qed.

Lemma b2a_ascii (v : Z) : 0 <= v < 64 -> is_ascii (base64.b2a v) = true.
Proof.
  intros Hv. unfold base64.b2a.
  split_tests; unfold is_ascii; split_tests; reflexivity.
Qed.

(** One alphabet character moves the decoder one position on. *)
Lemma a2b_loop_alphabet (v : Z) (s : bytes) (quad_pos : nat) (leftchar pads : Z)
    (out : bytes) :
  0 <= v < 64 ->
  base64.a2b_loop (base64.b2a v :: s) quad_pos leftchar pads out =
  match quad_pos with
  | O => base64.a2b_loop s 1%nat v 0 out
  | 1%nat => base64.a2b_loop s 2%nat (v mod 16) 0 (leftchar * 4 + v / 16 :: out)
  | 2%nat => base64.a2b_loop s 3%nat (v mod 4) 0 (leftchar * 16 + v / 4 :: out)
  | _ => base64.a2b_loop s O 0 0 (leftchar * 64 + v :: out)
  end.
Proof.
  intros Hv. cbn [base64.a2b_loop].
  rewrite (b2a_not_pad v Hv), (b2a_a2b v Hv). reflexivity.
Qed.

(** Induction on a list three elements at a time. *)
Lemma list_ind3 {A : Type} (P : list A -> Prop) :
  P [] ->
  (forall a, P [a]) ->
  (forall a b, P [a; b]) ->
  (forall a b c l, P l -> P (a :: b :: c :: l)) ->
  forall l, P l.
Proof.
  intros Hnil Hone Htwo Hstep.
  assert (Hall : forall l, P l /\ (forall a, P (a :: l))
                           /\ (forall a b, P (a :: b :: l))).
  { induction l as [| x l [IH0 [IH1 IH2]]].
    - repeat split; auto.
    - repeat split; auto. }
  intros l. apply Hall.
Qed.

Lemma is_byte_sextets (b : Z) :
  is_byte b ->
  0 <= b / 4 < 64 /\ 0 <= b mod 4 * 16 < 64 /\ 0 <= b mod 16 * 4 < 64
  /\ 0 <= b mod 64 < 64 /\ 0 <= b / 16 < 16 /\ 0 <= b / 64 < 4.
Proof. unfold is_byte. intros H. Z.div_mod_to_equations. lia. Qed.

(** The characters of an encoding are ASCII. *)
Lemma b64encode_ascii (b : bytes) :
  Forall is_byte b -> Forall (fun c => is_ascii c = true) (base64.b64encode b).
Proof.
  induction b as [| b0 | b0 b1 | b0 b1 b2 rest IH] using list_ind3; intros Hb;
    cbn [base64.b64encode].
  - constructor.
  - apply Forall_inv in Hb. apply is_byte_sextets in Hb.
    repeat (apply Forall_cons; [first [apply b2a_ascii; lia | reflexivity] |]).
    constructor.
  - pose proof (Forall_inv Hb) as H0.
    pose proof (Forall_inv (Forall_inv_tail Hb)) as H1.
    apply is_byte_sextets in H0. apply is_byte_sextets in H1.
    repeat (apply Forall_cons; [first [apply b2a_ascii; lia | reflexivity] |]).
    constructor.
  - pose proof (Forall_inv Hb) as H0.
    pose proof (Forall_inv (Forall_inv_tail Hb)) as H1.
    pose proof (Forall_inv (Forall_inv_tail (Forall_inv_tail Hb))) as H2.
    apply is_byte_sextets in H0. apply is_byte_sextets in H1.
    apply is_byte_sextets in H2.
    repeat (apply Forall_cons; [apply b2a_ascii; lia |]).
    apply IH. exact (Forall_inv_tail (Forall_inv_tail (Forall_inv_tail Hb))).
Qed.

(** The decoder run on an encoding writes the encoded octets. *)
Lemma a2b_loop_b64encode (b : bytes) :
  Forall is_byte b ->
  forall leftchar pads out,
    base64.a2b_loop (base64.b64encode b) O leftchar pads out = Ok (rev out ++ b).
Proof.
  induction b as [| b0 | b0 b1 | b0 b1 b2 rest IH] using list_ind3;
    intros Hb leftchar pads out; cbn [base64.b64encode].
  - cbn. rewrite app_nil_r. reflexivity.
  - pose proof (Forall_inv Hb) as H0. pose proof (is_byte_sextets _ H0) as S0.
    rewrite !a2b_loop_alphabet by lia.
    replace (b0 / 4 * 4 + b0 mod 4 * 16 / 16) with b0
      by (Z.div_mod_to_equations; lia).
    reflexivity.
  - pose proof (Forall_inv Hb) as H0.
    pose proof (Forall_inv (Forall_inv_tail Hb)) as H1.
    pose proof (is_byte_sextets _ H0) as S0.
    pose proof (is_byte_sextets _ H1) as S1.
    rewrite !a2b_loop_alphabet by lia.
    replace (b0 / 4 * 4 + (b0 mod 4 * 16 + b1 / 16) / 16) with b0
      by (Z.div_mod_to_equations; lia).
    replace ((b0 mod 4 * 16 + b1 / 16) mod 16 * 16 + b1 mod 16 * 4 / 4) with b1
      by (Z.div_mod_to_equations; lia).
    cbn. rewrite <- app_assoc. reflexivity.
  - pose proof (Forall_inv Hb) as H0.
    pose proof (Forall_inv (Forall_inv_tail Hb)) as H1.
    pose proof (Forall_inv (Forall_inv_tail (Forall_inv_tail Hb))) as H2.
    pose proof (is_byte_sextets _ H0) as S0.
    pose proof (is_byte_sextets _ H1) as S1.
    pose proof (is_byte_sextets _ H2) as S2.
    rewrite !a2b_loop_alphabet by lia.
    replace (b0 / 4 * 4 + (b0 mod 4 * 16 + b1 / 16) / 16) with b0
      by (Z.div_mod_to_equations; lia).
    replace ((b0 mod 4 * 16 + b1 / 16) mod 16 * 16 + (b1 mod 16 * 4 + b2 / 64) / 4)
      with b1 by (Z.div_mod_to_equations; lia).
    replace ((b1 mod 16 * 4 + b2 / 64) mod 4 * 64 + b2 mod 64) with b2
      by (Z.div_mod_to_equations; lia).
    rewrite IH by exact (Forall_inv_tail (Forall_inv_tail (Forall_inv_tail Hb))).
    cbn [rev]. rewrite <- !app_assoc. reflexivity.
Qed.

(** [b64decode] undoes [b64encode]. *)
Lemma b64decode_b64encode (b : bytes) :
  Forall is_byte b -> base64.b64decode (base64.b64encode b) = Ok b.
Proof.
  intros Hb. unfold base64.b64decode, ascii_encode.
  rewrite (ascii_encode_ascii _ (b64encode_ascii b Hb)).
  cbn [try_except bind]. unfold base64.a2b_base64.
  rewrite (a2b_loop_b64encode b Hb). reflexivity.
Qed.

(** ** Hexadecimal digests *)

Lemma hex_fixed_lower (width : nat) :
  forall z, Forall (fun c => is_lower_hex c = true) (hex_fixed width z).
Proof.
  induction width as [| w IH]; intros z; cbn [hex_fixed].
  - constructor.
  - apply Forall_app. split; [apply IH |].
    constructor; [| constructor].
    unfold hex_digit, is_lower_hex. split_tests; reflexivity.
Qed.

Lemma hex_fixed_length (width : nat) :
  forall z, List.length (hex_fixed width z) = width.
Proof.
  induction width as [| w IH]; intros z; cbn [hex_fixed].
  - reflexivity.
  - rewrite length_app, IH. cbn. lia.
Qed.

(** A hex digest is made of the characters [0-9a-f], two per octet. *)
Lemma hexdigest_lower (d : bytes) :
  Forall (fun c => is_lower_hex c = true) (hashlib.hexdigest d).
Proof.
  unfold hashlib.hexdigest. induction d as [| x d IH]; cbn [flat_map].
  - constructor.
  - apply Forall_app. split; [apply hex_fixed_lower | exact IH].
Qed.

Lemma hexdigest_length (d : bytes) :
  List.length (hashlib.hexdigest d) = (2 * List.length d)%nat.
Proof.
  unfold hashlib.hexdigest. induction d as [| x d IH]; cbn [flat_map].
  - reflexivity.
  - rewrite length_app, hex_fixed_length, IH. cbn [List.length]. lia.
Qed.

Lemma md5_length (msg : bytes) : List.length (hashlib.md5 msg) = 16%nat.
Proof.
  unfold hashlib.md5.
  destruct (fold_left hashlib.md5_block _ hashlib.md5_init) as [[[A B] C] D].
  reflexivity.
Qed.

Lemma length8 {A : Type} (l : list A) :
  List.length l = 8%nat -> exists a b c d e f g h, l = [a; b; c; d; e; f; g; h].
Proof.
  intros H.
  do 8 (destruct l as [| ? l]; [discriminate H |]).
  destruct l; [| discriminate H].
  repeat eexists.
Qed.

Lemma sha256_round_length (W st : list Z) (i : Z) :
  List.length st = 8%nat -> List.length (hashlib.sha256_round W st i) = 8%nat.
Proof.
  intros H. destruct (length8 st H) as (a & b & c & d & e & f & g & h & ->).
  reflexivity.
Qed.

Lemma sha256_block_length (st : list Z) (block : bytes) :
  List.length st = 8%nat -> List.length (hashlib.sha256_block st block) = 8%nat.
Proof.
  intros H. unfold hashlib.sha256_block.
  rewrite length_map, length_combine, H.
  assert (Hfold : forall idx st0, List.length st0 = 8%nat ->
            List.length (fold_left (hashlib.sha256_round
              (fold_left hashlib.sha256_extend (map Z.of_nat (seq 16 48))
                 (map hashlib.be_word (hashlib.chunks 16 4 block)))) idx st0) = 8%nat).
  { induction idx as [| i idx IH]; intros st0 H0; cbn [fold_left].
    - exact H0.
    - apply IH. apply sha256_round_length. exact H0. }
  rewrite (Hfold _ st H). reflexivity.
Qed.

Lemma sha256_length (msg : bytes) : List.length (hashlib.sha256 msg) = 32%nat.
Proof.
  unfold hashlib.sha256.
  assert (Hfold : forall bl st, List.length st = 8%nat ->
            List.length (fold_left hashlib.sha256_block bl st) = 8%nat).
  { induction bl as [| b bl IH]; intros st H; cbn [fold_left].
    - exact H.
    - apply IH. apply sha256_block_length. exact H. }
  specialize (Hfold (hashlib.blocks (hashlib.be_bytes 8) msg) hashlib.sha256_init eq_refl).
  destruct (length8 _ Hfold) as (a & b & c & d & e & f & g & h & ->).
  reflexivity.
Qed.

(** ** Floats *)

Lemma int_of_float_finite (x : float) :
  float_is_finite x = true -> exists t, int_of_float x = Ok t.
Proof.
  unfold float_is_finite, int_of_float.
  destruct (Prim2SF x) as [s | s | | s m e]; intros H; try discriminate H;
    eexists; reflexivity.
Qed.

(** Truncating and rounding differ only on a product that has a fraction. *)
Lemma round_float_integral (x : float) :
  float_is_integral x = true -> round_float x = int_of_float x.
Proof.
  unfold float_is_integral, round_float, int_of_float.
  destruct (Prim2SF x) as [s | s | | s m e]; intros H; try discriminate H;
    try reflexivity.
  destruct (Z.leb_spec 0 e) as [He | He]; [reflexivity |].
  cbn [orb] in H. apply Z.eqb_eq in H. rewrite H.
  assert (Hpow : 0 < 2 ^ (- e)) by (apply Z.pow_pos_nonneg; lia).
  destruct (Z.ltb_spec (2 * 0) (2 ^ (- e))) as [_ | Hge]; [reflexivity | lia].
Qed.

Lemma replace_at_neq (i : nat) (c : Z) (s : str) :
  (i < List.length s)%nat -> c <> nth i s 0 -> replace_at i c s <> s.
Proof.
  revert i. induction s as [| x s IH]; intros i Hi Hc.
  - cbn in Hi. lia.
  - simpl in Hi. destruct i as [| i]; cbn [replace_at nth] in *.
    + intros Heq. injection Heq as Heq. contradiction.
    + intros Heq. injection Heq as Heq. revert Heq. apply IH; [lia | exact Hc].
Qed.

(* ================================================================== *)
(** * Properties of the tools *)
(* ================================================================== *)

(** ** [payme_generate_checkout_url] *)

(** The parameter string the function builds is the specified one. *)
Lemma payme_params_eq (merchant_id order_id : str) (t : Z) (return_url : str) :
  lit "m=" ++ merchant_id ++ lit ";ac." ++ (lit "order_id=" ++ order_id)
    ++ lit ";a=" ++ str_of_int t ++ lit ";c=" ++ return_url
  = checkout_params merchant_id order_id t return_url.
Proof.
  unfold checkout_params.
  change (lit ";ac.order_id=") with (lit ";ac." ++ lit "order_id=").
  rewrite <- !app_assoc. reflexivity.
Qed.

(** The encoded segment is text: decoding the Base64 characters as UTF-8
    cannot fail. *)
Lemma b64encode_is_text (msg : bytes) :
  Forall is_byte msg ->
  utf8_decode (base64.b64encode msg) = Ok (base64.b64encode msg).
Proof.
  intros Hmsg. unfold utf8_decode.
  apply utf8_decode_ascii. apply b64encode_ascii. exact Hmsg.
Qed.

(** The function returns exactly when the amount in minor units is finite
    and the parameter string can be encoded, and then returns the
    dictionary built from the truncated amount. *)
Lemma payme_generate_checkout_url_ok
    (merchant_id : str) (amount : float) (order_id return_url : str)
    (is_production : bool) (t : Z) (msg : bytes) :
  int_of_float (amount * 100)%float = Ok t ->
  utf8_encode (checkout_params merchant_id order_id t return_url) = Ok msg ->
  payme_generate_checkout_url merchant_id amount order_id return_url is_production
  = Ok (checkout_result amount order_id is_production t (base64.b64encode msg)).
Proof.
  intros Ht Hmsg. unfold payme_generate_checkout_url.
  rewrite Ht. cbn [bind]. rewrite payme_params_eq, Hmsg. cbn [bind].
  rewrite b64encode_is_text
    by (eapply utf8_encode_from_bytes; exact Hmsg).
  reflexivity.
Qed.

Lemma payme_generate_checkout_url_inv
    (merchant_id : str) (amount : float) (order_id return_url : str)
    (is_production : bool) (r : dict) :
  payme_generate_checkout_url merchant_id amount order_id return_url is_production
  = Ok r ->
  exists t msg,
    int_of_float (amount * 100)%float = Ok t
    /\ utf8_encode (checkout_params merchant_id order_id t return_url) = Ok msg
    /\ r = checkout_result amount order_id is_production t (base64.b64encode msg).
Proof.
  intros H. unfold payme_generate_checkout_url in H.
  apply bind_ok_inv in H. destruct H as [t [Ht H]].
  rewrite payme_params_eq in H.
  apply bind_ok_inv in H. destruct H as [msg [Hmsg H]].
  exists t, msg. split; [exact Ht |]. split; [exact Hmsg |].
  pose proof (payme_generate_checkout_url_ok merchant_id amount order_id
                return_url is_production t msg Ht Hmsg) as Hok.
  unfold payme_generate_checkout_url in Hok.
  rewrite Ht in Hok. cbn [bind] in Hok. rewrite payme_params_eq, Hmsg in Hok.
  cbn [bind] in Hok. congruence.
Qed.

Lemma checkout_params_encodable (merchant_id order_id : str) (t : Z)
    (return_url : str) :
  encodable merchant_id = true -> encodable order_id = true ->
  encodable return_url = true ->
  encodable (checkout_params merchant_id order_id t return_url) = true.
Proof.
  intros Hm Ho Hu. unfold checkout_params, str_of_int.
  rewrite !encodable_app, !encodable_lit, Hm, Ho, Hu. reflexivity.
Qed.

(** C1. The specification converts the amount with [round(amount * 100)].
    The function converts with [int(amount * 100)], which drops the
    fraction. On the scenario of the claim (50000.00 UZS, test environment)
    both give 5000000 tiyin and the URL starts with
    [https://checkout.test.paycom.uz/]. On 0.29 UZS (the float nearest to
    0.29) the product is 28.999999999999996: the function returns 28 tiyin,
    where [round] gives 29 and 1 UZS = 100 tiyin asks for 29. *)
Theorem C1_amount_truncated_where_spec_rounds :
  (payme_generate_checkout_url (lit "68944508cab302211ad21b06") 50000
      (lit "booking_123") (lit "https://myapp.com/ok") false
    = Ok (checkout_result 50000 (lit "booking_123") false 5000000
            (lit "bT02ODk0NDUwOGNhYjMwMjIxMWFkMjFiMDY7YWMub3JkZXJfaWQ9Ym9va2luZ18xMjM7YT01MDAwMDAwO2M9aHR0cHM6Ly9teWFwcC5jb20vb2s="))
   /\ spec_amount_minor 50000 = Ok 5000000
   /\ exists url,
        dict_get (checkout_result 50000 (lit "booking_123") false 5000000
            (lit "bT02ODk0NDUwOGNhYjMwMjIxMWFkMjFiMDY7YWMub3JkZXJfaWQ9Ym9va2luZ18xMjM7YT01MDAwMDAwO2M9aHR0cHM6Ly9teWFwcC5jb20vb2s="))
          (lit "payment_url") = Some (PyStr url)
        /\ startswith url (lit "https://checkout.test.paycom.uz/") = true)
  /\
  (payme_generate_checkout_url (lit "68944508cab302211ad21b06")
      0x1.28f5c28f5c28fp-2 (lit "booking_123") (lit "https://myapp.com/ok") false
    = Ok (checkout_result 0x1.28f5c28f5c28fp-2 (lit "booking_123") false 28
            (lit "bT02ODk0NDUwOGNhYjMwMjIxMWFkMjFiMDY7YWMub3JkZXJfaWQ9Ym9va2luZ18xMjM7YT0yODtjPWh0dHBzOi8vbXlhcHAuY29tL29r"))
   /\ float_repr 0x1.28f5c28f5c28fp-2 = lit "0.29"
   /\ spec_amount_minor 0x1.28f5c28f5c28fp-2 = Ok 29).
Proof.
  split.
  - split; [vm_compute; reflexivity |].
    split; [vm_compute; reflexivity |].
    eexists. split; [reflexivity | vm_compute; reflexivity].
  - split; [vm_compute; reflexivity |].
    split; vm_compute; reflexivity.
Qed.

(** C2, as stated, fails: with amount 0, with a negative amount, and with
    an empty merchant_id and order_id the function returns a success
    result. *)
Lemma C2_zero_amount_and_empty_ids_accepted :
  (exists r,
     payme_generate_checkout_url (lit "68944508cab302211ad21b06") 0
       (lit "booking_123") (lit "https://myapp.com/ok") false = Ok r
     /\ dict_get r (lit "success") = Some (PyBool true)
     /\ dict_get r (lit "amount_tiyin") = Some (PyInt 0))
  /\ (exists r,
        payme_generate_checkout_url (lit "68944508cab302211ad21b06") (-5)
          (lit "booking_123") (lit "https://myapp.com/ok") false = Ok r
        /\ dict_get r (lit "success") = Some (PyBool true)
        /\ dict_get r (lit "amount_tiyin") = Some (PyInt (-500)))
  /\ (exists r,
        payme_generate_checkout_url [] 0 [] [] false = Ok r
        /\ dict_get r (lit "success") = Some (PyBool true)
        /\ dict_get r (lit "encoded_params")
           = Some (PyStr (lit "bT07YWMub3JkZXJfaWQ9O2E9MDtjPQ=="))).
Proof.
  split; [| split].
  - exists (checkout_result 0 (lit "booking_123") false 0
              (lit "bT02ODk0NDUwOGNhYjMwMjIxMWFkMjFiMDY7YWMub3JkZXJfaWQ9Ym9va2luZ18xMjM7YT0wO2M9aHR0cHM6Ly9teWFwcC5jb20vb2s=")).
    repeat split; vm_compute; reflexivity.
  - exists (checkout_result (-5) (lit "booking_123") false (-500)
              (lit "bT02ODk0NDUwOGNhYjMwMjIxMWFkMjFiMDY7YWMub3JkZXJfaWQ9Ym9va2luZ18xMjM7YT0tNTAwO2M9aHR0cHM6Ly9teWFwcC5jb20vb2s=")).
    repeat split; vm_compute; reflexivity.
  - exists (checkout_result 0 [] false 0 (lit "bT07YWMub3JkZXJfaWQ9O2E9MDtjPQ==")).
    repeat split; vm_compute; reflexivity.
Qed.

(** C2, amended. The function validates nothing: whatever the sign of the
    amount and whether or not the identifiers are empty, it returns a
    success result as soon as [amount * 100] is finite and the three
    strings can be encoded. *)
Theorem C2_checkout_validates_nothing
    (merchant_id : str) (amount : float) (order_id return_url : str)
    (is_production : bool) :
  float_is_finite (amount * 100)%float = true ->
  encodable merchant_id = true ->
  encodable order_id = true ->
  encodable return_url = true ->
  exists r,
    payme_generate_checkout_url merchant_id amount order_id return_url
      is_production = Ok r
    /\ dict_get r (lit "success") = Some (PyBool true).
Proof.
  intros Hfin Hm Ho Hu.
  destruct (int_of_float_finite _ Hfin) as [t Ht].
  destruct (encodable_utf8 _ (checkout_params_encodable merchant_id order_id t
                                return_url Hm Ho Hu)
              (checkout_params merchant_id order_id t return_url) 0)
    as [msg Hmsg].
  eexists. split.
  - apply (payme_generate_checkout_url_ok _ _ _ _ _ t msg Ht Hmsg).
  - reflexivity.
Qed.

(** An instance: amount 0 and empty identifiers, production environment. *)
Lemma C2_checkout_validates_nothing_witness :
  exists r,
    payme_generate_checkout_url [] 0 [] (lit "https://myapp.com/ok") true = Ok r
    /\ dict_get r (lit "success") = Some (PyBool true).
Proof.
  apply C2_checkout_validates_nothing; vm_compute; reflexivity.
Defined.

(** C7. Whenever the function returns, Base64-decoding the
    [encoded_params] entry and reading the octets as UTF-8 gives back the
    parameter string [m=<merchant_id>;ac.order_id=<order_id>;a=<amount_tiyin>;c=<return_url>]
    built from the arguments and the [amount_tiyin] entry; the URL is the
    base URL of the environment, a slash and that entry. *)
Theorem C7_encoded_params_round_trip
    (merchant_id : str) (amount : float) (order_id return_url : str)
    (is_production : bool) (r : dict) :
  payme_generate_checkout_url merchant_id amount order_id return_url
    is_production = Ok r ->
  exists t encoded,
    dict_get r (lit "amount_tiyin") = Some (PyInt t)
    /\ dict_get r (lit "encoded_params") = Some (PyStr encoded)
    /\ (raw <- base64.b64decode encoded ;; utf8_decode raw)
       = Ok (checkout_params merchant_id order_id t return_url)
    /\ dict_get r (lit "payment_url")
       = Some (PyStr ((if is_production
                       then lit "https://checkout.paycom.uz"
                       else lit "https://checkout.test.paycom.uz")
                      ++ lit "/" ++ encoded)).
Proof.
  intros H. apply payme_generate_checkout_url_inv in H.
  destruct H as [t [msg [Ht [Hmsg ->]]]].
  exists t, (base64.b64encode msg).
  split; [reflexivity |]. split; [reflexivity |]. split; [| reflexivity].
  rewrite b64decode_b64encode by (eapply utf8_encode_from_bytes; exact Hmsg).
  cbn [bind]. unfold utf8_decode.
  apply (utf8_decode_encode _ _ _ _ Hmsg).
Qed.

(** An instance: the round trip on the 50000.00 UZS checkout. *)
Lemma C7_encoded_params_round_trip_witness :
  exists t encoded,
    dict_get (checkout_result 50000 (lit "booking_123") false 5000000
                (lit "bT02ODk0NDUwOGNhYjMwMjIxMWFkMjFiMDY7YWMub3JkZXJfaWQ9Ym9va2luZ18xMjM7YT01MDAwMDAwO2M9aHR0cHM6Ly9teWFwcC5jb20vb2s="))
      (lit "amount_tiyin") = Some (PyInt t)
    /\ dict_get (checkout_result 50000 (lit "booking_123") false 5000000
                (lit "bT02ODk0NDUwOGNhYjMwMjIxMWFkMjFiMDY7YWMub3JkZXJfaWQ9Ym9va2luZ18xMjM7YT01MDAwMDAwO2M9aHR0cHM6Ly9teWFwcC5jb20vb2s="))
         (lit "encoded_params") = Some (PyStr encoded)
    /\ (raw <- base64.b64decode encoded ;; utf8_decode raw)
       = Ok (checkout_params (lit "68944508cab302211ad21b06") (lit "booking_123")
               t (lit "https://myapp.com/ok"))
    /\ dict_get (checkout_result 50000 (lit "booking_123") false 5000000
                (lit "bT02ODk0NDUwOGNhYjMwMjIxMWFkMjFiMDY7YWMub3JkZXJfaWQ9Ym9va2luZ18xMjM7YT01MDAwMDAwO2M9aHR0cHM6Ly9teWFwcC5jb20vb2s="))
         (lit "payment_url")
       = Some (PyStr (lit "https://checkout.test.paycom.uz" ++ lit "/" ++ encoded)).
Proof.
  apply (C7_encoded_params_round_trip (lit "68944508cab302211ad21b06") 50000
           (lit "booking_123") (lit "https://myapp.com/ok") false).
  vm_compute. reflexivity.
Defined.

(** ** [payme_verify_webhook_auth] *)

Lemma split_from_nonempty (sep s : str) :
  forall skip cur, exists first others, split_from sep s skip cur = first :: others.
Proof.
  induction s as [| c s IH]; intros skip cur; cbn [split_from].
  - eexists. eexists. reflexivity.
  - destruct skip as [| k]; [| apply IH].
    destruct (startswith (c :: s) sep).
    + eexists. eexists. reflexivity.
    + apply IH.
Qed.

(** After the prefix ["Basic "] there always is a second field. *)
Lemma split_basic_has_token (header : str) :
  startswith header (lit "Basic ") = true ->
  exists token, getitem (split header (lit " ")) 1 = Ok token.
Proof.
  intros H. apply startswith_iff in H. destruct H as [rest ->].
  unfold split. cbn.
  destruct (split_from_nonempty [32] rest O []) as [first [others ->]].
  exists first. reflexivity.
Qed.

Lemma payme_verify_wrong_scheme (header key : str) :
  startswith header (lit "Basic ") = false ->
  payme_verify_webhook_auth header key = Ok wrong_scheme_result.
Proof.
  intros H. unfold payme_verify_webhook_auth. rewrite H. reflexivity.
Qed.

(** The three ways on after the scheme test, for a header that passed it
    and whose second field is [token]. *)
Section BasicHeader.

Variables header key token : str.
Hypothesis Hscheme : startswith header (lit "Basic ") = true.
Hypothesis Htoken : getitem (split header (lit " ")) 1 = Ok token.

Lemma payme_verify_decoded (raw : bytes) (decoded : str) :
  base64.b64decode token = Ok raw ->
  utf8_decode raw = Ok decoded ->
  payme_verify_webhook_auth header key = Ok (auth_result key decoded).
Proof using Hscheme Htoken.
  intros Hraw Hdec. unfold payme_verify_webhook_auth.
  rewrite Hscheme, Htoken. cbn [negb bind]. rewrite Hraw. cbn [bind].
  rewrite Hdec. reflexivity.
Qed.

Lemma payme_verify_base64_error (e : exn) :
  base64.b64decode token = Raise e ->
  payme_verify_webhook_auth header key = Ok (decode_error_result e).
Proof using Hscheme Htoken.
  intros Hraw. unfold payme_verify_webhook_auth.
  rewrite Hscheme, Htoken. cbn [negb bind]. rewrite Hraw. reflexivity.
Qed.

Lemma payme_verify_utf8_error (raw : bytes) (e : exn) :
  base64.b64decode token = Ok raw ->
  utf8_decode raw = Raise e ->
  payme_verify_webhook_auth header key = Ok (decode_error_result e).
Proof using Hscheme Htoken.
  intros Hraw Hdec. unfold payme_verify_webhook_auth.
  rewrite Hscheme, Htoken. cbn [negb bind]. rewrite Hraw. cbn [bind].
  rewrite Hdec. reflexivity.
Qed.

End BasicHeader.

(** C4. For every header and key the function returns a dictionary with a
    boolean [valid] entry and never raises. A header that does not start
    with ["Basic "] gives [valid = False] with the wrong-scheme reason.
    Otherwise the header has a token, and when Base64 decoding of the
    token raises, or UTF-8 decoding of the octets raises, the result is
    [valid = False] with the reason ["Error verifying authorization: "]
    followed by the text of the exception. *)
Theorem C4_payme_verify_never_raises (authorization_header merchant_key : str) :
  exists r,
    payme_verify_webhook_auth authorization_header merchant_key = Ok r
    /\ (exists b, dict_get r (lit "valid") = Some (PyBool b))
    /\ (startswith authorization_header (lit "Basic ") = false ->
        r = wrong_scheme_result)
    /\ (startswith authorization_header (lit "Basic ") = true ->
        exists token,
          getitem (split authorization_header (lit " ")) 1 = Ok token
          /\ (forall e, base64.b64decode token = Raise e ->
                        r = decode_error_result e)
          /\ (forall raw e, base64.b64decode token = Ok raw ->
                            utf8_decode raw = Raise e ->
                            r = decode_error_result e)).
Proof.
  destruct (startswith authorization_header (lit "Basic ")) eqn:Hs.
  - destruct (split_basic_has_token _ Hs) as [token Ht].
    destruct (base64.b64decode token) as [raw | e1] eqn:Hraw.
    + destruct (utf8_decode raw) as [decoded | e2] eqn:Hdec.
      * exists (auth_result merchant_key decoded).
        split; [exact (payme_verify_decoded _ _ token Hs Ht raw decoded Hraw Hdec) |].
        split; [eexists; reflexivity |].
        split; [discriminate |].
        intros _. exists token. split; [exact Ht |].
        split; [intros e He; rewrite Hraw in He; discriminate He |].
        intros raw' e Hr He. rewrite Hraw in Hr. injection Hr as <-.
        rewrite Hdec in He. discriminate He.
      * exists (decode_error_result e2).
        split; [exact (payme_verify_utf8_error _ _ token Hs Ht raw e2 Hraw Hdec) |].
        split; [eexists; reflexivity |].
        split; [discriminate |].
        intros _. exists token. split; [exact Ht |].
        split; [intros e He; rewrite Hraw in He; discriminate He |].
        intros raw' e Hr He. rewrite Hraw in Hr. injection Hr as <-.
        rewrite Hdec in He. injection He as <-. reflexivity.
    + exists (decode_error_result e1).
      split; [exact (payme_verify_base64_error _ _ token Hs Ht e1 Hraw) |].
      split; [eexists; reflexivity |].
      split; [discriminate |].
      intros _. exists token. split; [exact Ht |].
      split; [intros e He; rewrite Hraw in He; injection He as <-; reflexivity |].
      intros raw' e Hr. rewrite Hraw in Hr. discriminate Hr.
  - exists wrong_scheme_result.
    split; [apply payme_verify_wrong_scheme; exact Hs |].
    split; [eexists; reflexivity |].
    split; [reflexivity | discriminate].
Qed.

(** The failures of C4 on concrete headers: another scheme (scenario 4 of
    the specification), a token of one character, octets that are not
    UTF-8, a token that is not ASCII. *)
Lemma payme_verify_failure_examples :
  payme_verify_webhook_auth (lit "Digest abc") (lit "k") = Ok wrong_scheme_result
  /\ payme_verify_webhook_auth (lit "Basic Y") (lit "k")
     = Ok [ (lit "valid", PyBool false);
            (lit "reason",
             PyStr (lit "Error verifying authorization: Invalid base64-encoded string: number of data characters (1) cannot be 1 more than a multiple of 4")) ]
  /\ payme_verify_webhook_auth (lit "Basic YQ=") (lit "k")
     = Ok [ (lit "valid", PyBool false);
            (lit "reason",
             PyStr (lit "Error verifying authorization: Incorrect padding")) ]
  /\ payme_verify_webhook_auth (lit "Basic /w==") (lit "k")
     = Ok [ (lit "valid", PyBool false);
            (lit "reason",
             PyStr (lit "Error verifying authorization: 'utf-8' codec can't decode byte 0xff in position 0: invalid start byte")) ]
  /\ payme_verify_webhook_auth (lit "Basic " ++ [233]) (lit "k")
     = Ok [ (lit "valid", PyBool false);
            (lit "reason",
             PyStr (lit "Error verifying authorization: string argument should contain only ASCII characters")) ].
Proof. repeat split; vm_compute; reflexivity. Qed.

(** C5. For a header ["Basic <token>"] whose token (no space in it)
    Base64-decodes to octets that are the UTF-8 text [decoded], the result
    is valid exactly when the key is a substring of [decoded]; a valid
    result carries [decoded], an invalid one carries ["[hidden]"]. *)
Theorem C5_payme_verify_substring_rule
    (token merchant_key : str) (raw : bytes) (decoded : str) :
  ~ In 32 token ->
  base64.b64decode token = Ok raw ->
  utf8_decode raw = Ok decoded ->
  exists r,
    payme_verify_webhook_auth (lit "Basic " ++ token) merchant_key = Ok r
    /\ (dict_get r (lit "valid") = Some (PyBool true)
        <-> substring merchant_key decoded)
    /\ (substring merchant_key decoded ->
        dict_get r (lit "decoded_auth") = Some (PyStr decoded))
    /\ (~ substring merchant_key decoded ->
        dict_get r (lit "valid") = Some (PyBool false)
        /\ dict_get r (lit "decoded_auth") = Some (PyStr (lit "[hidden]"))).
Proof.
  intros Hno Hraw Hdec.
  exists (auth_result merchant_key decoded). split.
  - exact (payme_verify_decoded _ _ token (startswith_app _ _)
             (split_basic_token token Hno) raw decoded Hraw Hdec).
  - pose proof (contains_iff merchant_key decoded) as Hiff.
    unfold auth_result. cbn [dict_get str_eqb lit map list_ascii_of_string].
    cbn. destruct (contains merchant_key decoded).
    + split; [split; [intros _; apply Hiff; reflexivity | reflexivity] |].
      split; [reflexivity |].
      intros Hn. exfalso. apply Hn. apply Hiff. reflexivity.
    + split.
      * split; [discriminate |].
        intros Hsub. apply Hiff in Hsub. discriminate Hsub.
      * split; [| split; reflexivity].
        intros Hsub. apply Hiff in Hsub. discriminate Hsub.
Qed.

(** An instance: the header of the docstring, which decodes to
    [merchant_id:secret_key]. *)
Lemma C5_payme_verify_substring_rule_witness :
  exists r,
    payme_verify_webhook_auth
      (lit "Basic " ++ lit "bWVyY2hhbnRfaWQ6c2VjcmV0X2tleQ==") (lit "secret_key")
    = Ok r
    /\ (dict_get r (lit "valid") = Some (PyBool true)
        <-> substring (lit "secret_key") (lit "merchant_id:secret_key"))
    /\ (substring (lit "secret_key") (lit "merchant_id:secret_key") ->
        dict_get r (lit "decoded_auth")
        = Some (PyStr (lit "merchant_id:secret_key")))
    /\ (~ substring (lit "secret_key") (lit "merchant_id:secret_key") ->
        dict_get r (lit "valid") = Some (PyBool false)
        /\ dict_get r (lit "decoded_auth") = Some (PyStr (lit "[hidden]"))).
Proof.
  apply (C5_payme_verify_substring_rule (lit "bWVyY2hhbnRfaWQ6c2VjcmV0X2tleQ==")
           (lit "secret_key") (lit "merchant_id:secret_key")
           (lit "merchant_id:secret_key")).
  - vm_compute. intros H. repeat (destruct H as [H | H]; [discriminate H |]).
    exact H.
  - vm_compute. reflexivity.
  - vm_compute. reflexivity.
Defined.

(** C9. With the empty string as key, every header ["Basic <token>"] whose
    token decodes to some UTF-8 text is valid, and the decoded text is
    returned. *)
Theorem C9_empty_key_accepts_every_decodable_header
    (token : str) (raw : bytes) (decoded : str) :
  ~ In 32 token ->
  base64.b64decode token = Ok raw ->
  utf8_decode raw = Ok decoded ->
  payme_verify_webhook_auth (lit "Basic " ++ token) []
  = Ok [ (lit "valid", PyBool true);
         (lit "decoded_auth", PyStr decoded);
         (lit "message", PyStr (lit "Valid Payme webhook authentication")) ].
Proof.
  intros Hno Hraw Hdec.
  rewrite (payme_verify_decoded _ [] token (startswith_app _ _)
             (split_basic_token token Hno) raw decoded Hraw Hdec).
  unfold auth_result. rewrite contains_empty. reflexivity.
Qed.

(** An instance: a header that decodes to [anybody:anything]. *)
Lemma C9_empty_key_accepts_every_decodable_header_witness :
  payme_verify_webhook_auth (lit "Basic " ++ lit "YW55Ym9keTphbnl0aGluZw==") []
  = Ok [ (lit "valid", PyBool true);
         (lit "decoded_auth", PyStr (lit "anybody:anything"));
         (lit "message", PyStr (lit "Valid Payme webhook authentication")) ].
Proof.
  apply (C9_empty_key_accepts_every_decodable_header
           (lit "YW55Ym9keTphbnl0aGluZw==") (lit "anybody:anything")).
  - vm_compute. intros H. repeat (destruct H as [H | H]; [discriminate H |]).
    exact H.
  - vm_compute. reflexivity.
  - vm_compute. reflexivity.
Defined.

(** ** [click_generate_invoice_url] *)

(** C8. The invoice URL is the endpoint [https://my.click.uz/services/pay]
    in both environments, one [?], and the pairs [key=value] joined by [&]
    in the order service_id, merchant_id, amount, transaction_param,
    return_url, followed by merchant_user_id only when one is given (and
    is not empty). *)
Theorem C8_click_invoice_url_layout
    (service_id merchant_id : str) (amount : pyvalue)
    (transaction_param return_url : str) (merchant_user_id : option str)
    (is_production : bool) :
  dict_get
    (click_generate_invoice_url service_id merchant_id amount transaction_param
       return_url merchant_user_id is_production)
    (lit "invoice_url")
  = Some (PyStr
      (lit "https://my.click.uz/services/pay" ++ lit "?"
       ++ lit "service_id=" ++ service_id
       ++ lit "&merchant_id=" ++ merchant_id
       ++ lit "&amount=" ++ format_value amount
       ++ lit "&transaction_param=" ++ transaction_param
       ++ lit "&return_url=" ++ return_url
       ++ match merchant_user_id with
          | Some (c :: user) => lit "&merchant_user_id=" ++ c :: user
          | Some [] | None => []
          end)).
Proof.
  assert (Habsent :
    forall prod,
      dict_get
        (click_generate_invoice_url service_id merchant_id amount
           transaction_param return_url None prod) (lit "invoice_url")
      = Some (PyStr
          (lit "https://my.click.uz/services/pay" ++ lit "?"
           ++ lit "service_id=" ++ service_id
           ++ lit "&merchant_id=" ++ merchant_id
           ++ lit "&amount=" ++ format_value amount
           ++ lit "&transaction_param=" ++ transaction_param
           ++ lit "&return_url=" ++ return_url ++ []))).
  { intros prod. rewrite app_nil_r. destruct prod; reflexivity. }
  destruct merchant_user_id as [[| c user] |].
  - exact (Habsent is_production).
  - destruct is_production; reflexivity.
  - exact (Habsent is_production).
Qed.

(** The call of the docstring. *)
Lemma click_invoice_url_example :
  dict_get
    (click_generate_invoice_url (lit "12345") (lit "67890") (PyFloat 150000)
       (lit "booking_456") (lit "https://myapp.com/payment/callback") None false)
    (lit "invoice_url")
  = Some (PyStr (lit "https://my.click.uz/services/pay?service_id=12345&merchant_id=67890&amount=150000.0&transaction_param=booking_456&return_url=https://myapp.com/payment/callback")).
Proof. vm_compute. reflexivity. Qed.

(** C10. An empty merchant_user_id is treated as an absent one: the whole
    result, and so the URL, is the same. *)
Theorem C10_empty_user_id_is_absent
    (service_id merchant_id : str) (amount : pyvalue)
    (transaction_param return_url : str) (is_production : bool) :
  click_generate_invoice_url service_id merchant_id amount transaction_param
    return_url (Some []) is_production
  = click_generate_invoice_url service_id merchant_id amount transaction_param
      return_url None is_production.
Proof. reflexivity. Qed.

(** ** [click_verify_webhook_signature] *)

Lemma click_verify_ok
    (click_trans_id service_id secret_key merchant_trans_id : str)
    (amount : pyvalue) (action : Z) (sign_time received : str) (msg : bytes) :
  utf8_encode (click_trans_id ++ service_id ++ secret_key ++ merchant_trans_id
               ++ format_value amount ++ str_of_int action ++ sign_time) = Ok msg ->
  click_verify_webhook_signature click_trans_id service_id secret_key
    merchant_trans_id amount action sign_time received
  = Ok [ (lit "valid",
          PyBool (str_eqb (hashlib.hexdigest (hashlib.md5 msg)) received));
         (lit "expected_signature", PyStr (hashlib.hexdigest (hashlib.md5 msg)));
         (lit "received_signature", PyStr received);
         (lit "message",
          PyStr (if str_eqb (hashlib.hexdigest (hashlib.md5 msg)) received
                 then lit "Signature is valid"
                 else lit "Invalid signature - potential security issue")) ].
Proof.
  intros H. unfold click_verify_webhook_signature. rewrite H. reflexivity.
Qed.

(** C3. The expected signature is the MD5 digest, in lowercase
    hexadecimal (32 characters), of the UTF-8 octets of click_trans_id,
    service_id, secret_key, merchant_trans_id, amount, action and
    sign_time written one after the other, and the result is valid exactly
    when the received signature is that text. On the scenario of the claim
    the signed text is [123456s3cretm1100012024-01-01], its digest is
    [9eef0a099ab8ad0a4c92aee638a59962], and the result is valid. *)
Theorem C3_click_signature_is_md5_of_concatenation :
  (forall (click_trans_id service_id secret_key merchant_trans_id : str)
          (amount : pyvalue) (action : Z) (sign_time received : str)
          (msg : bytes),
      utf8_encode (click_trans_id ++ service_id ++ secret_key
                   ++ merchant_trans_id ++ format_value amount
                   ++ str_of_int action ++ sign_time) = Ok msg ->
      exists r,
        click_verify_webhook_signature click_trans_id service_id secret_key
          merchant_trans_id amount action sign_time received = Ok r
        /\ dict_get r (lit "expected_signature")
           = Some (PyStr (hashlib.hexdigest (hashlib.md5 msg)))
        /\ (dict_get r (lit "valid") = Some (PyBool true)
            <-> received = hashlib.hexdigest (hashlib.md5 msg))
        /\ (dict_get r (lit "valid") = Some (PyBool false)
            <-> received <> hashlib.hexdigest (hashlib.md5 msg))
        /\ List.length (hashlib.hexdigest (hashlib.md5 msg)) = 32%nat
        /\ Forall (fun c => is_lower_hex c = true)
             (hashlib.hexdigest (hashlib.md5 msg)))
  /\ (exists msg,
        utf8_encode (lit "123456s3cretm1100012024-01-01") = Ok msg
        /\ hashlib.hexdigest (hashlib.md5 msg)
           = lit "9eef0a099ab8ad0a4c92aee638a59962"
        /\ result_valid
             (click_verify_webhook_signature (lit "123") (lit "456")
                (lit "s3cret") (lit "m1") (PyStr (lit "1000")) 1
                (lit "2024-01-01") (hashlib.hexdigest (hashlib.md5 msg)))
           = Some true).
Proof.
  split.
  - intros ct sid sk mt amount action st received msg Hmsg.
    eexists. split; [apply click_verify_ok; exact Hmsg |].
    split; [reflexivity |].
    change (dict_get _ (lit "valid"))
      with (Some (PyBool (str_eqb (hashlib.hexdigest (hashlib.md5 msg)) received))).
    destruct (str_eqb (hashlib.hexdigest (hashlib.md5 msg)) received) eqn:E.
    + apply str_eqb_eq in E. subst received.
      split; [split; reflexivity |].
      split; [split; [discriminate | intros H; exfalso; apply H; reflexivity] |].
      split; [rewrite hexdigest_length, md5_length; reflexivity |].
      apply hexdigest_lower.
    + apply str_eqb_neq in E.
      split; [split; [discriminate | intros H; exfalso; apply E; symmetry; exact H] |].
      split; [split; [intros _ H; apply E; symmetry; exact H | reflexivity] |].
      split; [rewrite hexdigest_length, md5_length; reflexivity |].
      apply hexdigest_lower.
  - eexists. split; [vm_compute; reflexivity |].
    split; vm_compute; reflexivity.
Qed.

(** An instance: the general statement at the arguments of the scenario. *)
Lemma C3_click_signature_witness :
  exists r,
    click_verify_webhook_signature (lit "123") (lit "456") (lit "s3cret")
      (lit "m1") (PyStr (lit "1000")) 1 (lit "2024-01-01")
      (lit "9eef0a099ab8ad0a4c92aee638a59962") = Ok r
    /\ dict_get r (lit "expected_signature")
       = Some (PyStr (hashlib.hexdigest
                        (hashlib.md5 (lit "123456s3cretm1100012024-01-01"))))
    /\ (dict_get r (lit "valid") = Some (PyBool true)
        <-> lit "9eef0a099ab8ad0a4c92aee638a59962"
            = hashlib.hexdigest
                (hashlib.md5 (lit "123456s3cretm1100012024-01-01")))
    /\ (dict_get r (lit "valid") = Some (PyBool false)
        <-> lit "9eef0a099ab8ad0a4c92aee638a59962"
            <> hashlib.hexdigest
                 (hashlib.md5 (lit "123456s3cretm1100012024-01-01")))
    /\ List.length (hashlib.hexdigest
                      (hashlib.md5 (lit "123456s3cretm1100012024-01-01")))
       = 32%nat
    /\ Forall (fun c => is_lower_hex c = true)
         (hashlib.hexdigest (hashlib.md5 (lit "123456s3cretm1100012024-01-01"))).
Proof.
  apply (proj1 C3_click_signature_is_md5_of_concatenation
           (lit "123") (lit "456") (lit "s3cret") (lit "m1")
           (PyStr (lit "1000")) 1 (lit "2024-01-01")
           (lit "9eef0a099ab8ad0a4c92aee638a59962")
           (lit "123456s3cretm1100012024-01-01")).
  vm_compute. reflexivity.
Defined.

(** The amount is signed in the form an f-string gives it: the float
    [1000.0] is signed as [1000.0], so the signature of the scenario, made
    over [1000], does not verify for it. *)
Lemma click_signature_float_amount :
  result_valid
    (click_verify_webhook_signature (lit "123") (lit "456") (lit "s3cret")
       (lit "m1") (PyFloat 1000) 1 (lit "2024-01-01")
       (lit "9eef0a099ab8ad0a4c92aee638a59962")) = Some false
  /\ result_valid
       (click_verify_webhook_signature (lit "123") (lit "456") (lit "s3cret")
          (lit "m1") (PyInt 1000) 1 (lit "2024-01-01")
          (lit "9eef0a099ab8ad0a4c92aee638a59962")) = Some true.
Proof. split; vm_compute; reflexivity. Qed.

(** ** [octo_verify_webhook_signature] *)

Lemma octo_verify_ok
    (octo_payment_uuid status received secret_key : str) (msg : bytes) :
  utf8_encode (octo_payment_uuid ++ status ++ secret_key) = Ok msg ->
  octo_verify_webhook_signature octo_payment_uuid status received secret_key
  = Ok [ (lit "valid",
          PyBool (str_eqb (hashlib.hexdigest (hashlib.sha256 msg)) received));
         (lit "expected_signature",
          PyStr (hashlib.hexdigest (hashlib.sha256 msg)));
         (lit "received_signature", PyStr received);
         (lit "message",
          PyStr (if str_eqb (hashlib.hexdigest (hashlib.sha256 msg)) received
                 then lit "Valid Octo webhook"
                 else lit "Invalid signature")) ].
Proof.
  intros H. unfold octo_verify_webhook_signature. rewrite H. reflexivity.
Qed.

Lemma octo_verify_valid
    (octo_payment_uuid status received secret_key : str) (msg : bytes) :
  utf8_encode (octo_payment_uuid ++ status ++ secret_key) = Ok msg ->
  result_valid
    (octo_verify_webhook_signature octo_payment_uuid status received secret_key)
  = Some (str_eqb (hashlib.hexdigest (hashlib.sha256 msg)) received).
Proof.
  intros H. rewrite (octo_verify_ok _ _ _ _ msg H). reflexivity.
Qed.

(** C6. When payment_uuid, status and secret, written one after the other,
    encode to [msg], the result is valid if and only if the received
    signature is the SHA-256 digest of [msg] in lowercase hexadecimal (64
    characters); replacing any one character of that digest by another
    makes the result invalid. On the scenario of the claim the digest of
    [uuid-1succeededk] verifies, and the same text with its first
    character changed from 9 to 8 does not. *)
Theorem C6_octo_signature_valid_iff_sha256 :
  (forall (octo_payment_uuid status received secret_key : str) (msg : bytes),
      utf8_encode (octo_payment_uuid ++ status ++ secret_key) = Ok msg ->
      (result_valid
         (octo_verify_webhook_signature octo_payment_uuid status received
            secret_key) = Some true
       <-> received = hashlib.hexdigest (hashlib.sha256 msg))
      /\ (result_valid
            (octo_verify_webhook_signature octo_payment_uuid status received
               secret_key) = Some false
          <-> received <> hashlib.hexdigest (hashlib.sha256 msg))
      /\ (forall (i : nat) (c : Z),
             (i < 64)%nat ->
             c <> nth i (hashlib.hexdigest (hashlib.sha256 msg)) 0 ->
             result_valid
               (octo_verify_webhook_signature octo_payment_uuid status
                  (replace_at i c (hashlib.hexdigest (hashlib.sha256 msg)))
                  secret_key) = Some false)
      /\ List.length (hashlib.hexdigest (hashlib.sha256 msg)) = 64%nat
      /\ Forall (fun c => is_lower_hex c = true)
           (hashlib.hexdigest (hashlib.sha256 msg)))
  /\ (exists msg,
        utf8_encode (lit "uuid-1succeededk") = Ok msg
        /\ hashlib.hexdigest (hashlib.sha256 msg)
           = lit "90186e48e54c2c3a8557466694ea979dca164bdc3f98702106b74d3a2a17b505"
        /\ result_valid
             (octo_verify_webhook_signature (lit "uuid-1") (lit "succeeded")
                (hashlib.hexdigest (hashlib.sha256 msg)) (lit "k")) = Some true
        /\ result_valid
             (octo_verify_webhook_signature (lit "uuid-1") (lit "succeeded")
                (lit "80186e48e54c2c3a8557466694ea979dca164bdc3f98702106b74d3a2a17b505")
                (lit "k")) = Some false).
Proof.
  split.
  - intros uuid status received secret msg Hmsg.
    assert (Hlen : List.length (hashlib.hexdigest (hashlib.sha256 msg)) = 64%nat)
      by (rewrite hexdigest_length, sha256_length; reflexivity).
    rewrite (octo_verify_valid _ _ received _ msg Hmsg).
    split; [| split; [| split; [| split]]].
    + split.
      * intros H. injection H as H. apply str_eqb_eq in H. symmetry. exact H.
      * intros ->. rewrite str_eqb_refl. reflexivity.
    + split.
      * intros H Heq. injection H as H. subst received.
        rewrite str_eqb_refl in H. discriminate H.
      * intros Hne. f_equal. apply str_eqb_neq. intros Heq. apply Hne.
        symmetry. exact Heq.
    + intros i c Hi Hc.
      rewrite (octo_verify_valid _ _ _ _ msg Hmsg). f_equal.
      apply str_eqb_neq. intros Heq.
      apply (replace_at_neq i c (hashlib.hexdigest (hashlib.sha256 msg)));
        [rewrite Hlen; exact Hi | exact Hc | symmetry; exact Heq].
    + exact Hlen.
    + apply hexdigest_lower.
  - eexists. split; [vm_compute; reflexivity |].
    repeat split; vm_compute; reflexivity.
Qed.

(** An instance: the general statement at the arguments of the scenario. *)
Lemma C6_octo_signature_witness :
  (result_valid
     (octo_verify_webhook_signature (lit "uuid-1") (lit "succeeded")
        (lit "90186e48e54c2c3a8557466694ea979dca164bdc3f98702106b74d3a2a17b505")
        (lit "k")) = Some true
   <-> lit "90186e48e54c2c3a8557466694ea979dca164bdc3f98702106b74d3a2a17b505"
       = hashlib.hexdigest (hashlib.sha256 (lit "uuid-1succeededk")))
  /\ (result_valid
        (octo_verify_webhook_signature (lit "uuid-1") (lit "succeeded")
           (lit "90186e48e54c2c3a8557466694ea979dca164bdc3f98702106b74d3a2a17b505")
           (lit "k")) = Some false
      <-> lit "90186e48e54c2c3a8557466694ea979dca164bdc3f98702106b74d3a2a17b505"
          <> hashlib.hexdigest (hashlib.sha256 (lit "uuid-1succeededk")))
  /\ (forall (i : nat) (c : Z),
         (i < 64)%nat ->
         c <> nth i (hashlib.hexdigest (hashlib.sha256 (lit "uuid-1succeededk"))) 0 ->
         result_valid
           (octo_verify_webhook_signature (lit "uuid-1") (lit "succeeded")
              (replace_at i c
                 (hashlib.hexdigest (hashlib.sha256 (lit "uuid-1succeededk"))))
              (lit "k")) = Some false)
  /\ List.length (hashlib.hexdigest (hashlib.sha256 (lit "uuid-1succeededk")))
     = 64%nat
  /\ Forall (fun c => is_lower_hex c = true)
       (hashlib.hexdigest (hashlib.sha256 (lit "uuid-1succeededk"))).
Proof.
  apply (proj1 C6_octo_signature_valid_iff_sha256
           (lit "uuid-1") (lit "succeeded")
           (lit "90186e48e54c2c3a8557466694ea979dca164bdc3f98702106b74d3a2a17b505")
           (lit "k") (lit "uuid-1succeededk")).
  vm_compute. reflexivity.
Defined.

(* ================================================================== *)
(** * Further properties of the tools *)
(* ================================================================== *)

(** ** More on the runtime fragments *)

(** Only a string without surrogates can be encoded. *)
Lemma utf8_encode_from_encodable (s : str) :
  forall object pos b, utf8_encode_from object s pos = Ok b -> encodable s = true.
Proof.
  induction s as [| c s IH]; intros object pos b H; cbn [utf8_encode_from] in H.
  - reflexivity.
  - cbn [encodable forallb]. fold (encodable s).
    destruct (Z.ltb_spec c 0); [discriminate H |].
    destruct (Z.leb_spec 0x110000 c); [discriminate H |].
    cbn [orb] in H.
    assert (Hrange : (0 <=? c) && (c <? 0x110000) = true).
    { apply andb_true_iff. split; [apply Z.leb_le | apply Z.ltb_lt]; lia. }
    rewrite Hrange. cbn [andb].
    assert (Htail : forall r, utf8_encode_from object s (pos + 1) = Ok r ->
                              encodable s = true) by (intros r; apply IH).
    destruct (Z.ltb_spec c 0x80).
    { apply bind_ok_inv in H. destruct H as [r [Hr _]].
      rewrite (Htail r Hr). unfold is_surrogate.
      destruct (Z.leb_spec 0xD800 c); [lia | reflexivity]. }
    destruct (Z.ltb_spec c 0x800).
    { apply bind_ok_inv in H. destruct H as [r [Hr _]].
      rewrite (Htail r Hr). unfold is_surrogate.
      destruct (Z.leb_spec 0xD800 c); [lia | reflexivity]. }
    destruct (is_surrogate c); [discriminate H |].
    destruct (c <? 0x10000);
      apply bind_ok_inv in H; destruct H as [r [Hr _]];
      rewrite (Htail r Hr); reflexivity.
Qed.

Lemma encodable_iff (s : str) :
  encodable s = true <-> exists b, utf8_encode s = Ok b.
Proof.
  split.
  - intros H. exact (encodable_utf8 s H s 0).
  - intros [b H]. exact (utf8_encode_from_encodable s s 0 b H).
Qed.

(** A string that cannot be encoded makes [encode()] raise. *)
Lemma not_encodable_raises (s : str) :
  encodable s = false -> exists e, utf8_encode s = Raise e.
Proof.
  intros H. destruct (utf8_encode s) as [b | e] eqn:E.
  - assert (Henc : encodable s = true) by (apply encodable_iff; exists b; exact E).
    congruence.
  - exists e. reflexivity.
Qed.

Lemma int_of_float_ok_finite (x : float) (t : Z) :
  int_of_float x = Ok t -> float_is_finite x = true.
Proof.
  unfold int_of_float, float_is_finite.
  destruct (Prim2SF x); intros H; try discriminate H; reflexivity.
Qed.

Lemma encodable_forall (s : str) :
  encodable s = true <->
  forall c, In c s ->
            (0 <=? c) && (c <? 0x110000) && negb (is_surrogate c) = true.
Proof. unfold encodable. apply forallb_forall. Qed.

Lemma in_firstn {A : Type} (n : nat) :
  forall (l : list A) (x : A), In x (firstn n l) -> In x l.
Proof.
  induction n as [| n IH]; intros [| y l] x H; cbn [firstn] in H;
    try contradiction.
  destruct H as [H | H]; [left; exact H | right; apply IH; exact H].
Qed.

Lemma in_skipn {A : Type} (n : nat) :
  forall (l : list A) (x : A), In x (skipn n l) -> In x l.
Proof.
  induction n as [| n IH]; intros [| y l] x H; cbn [skipn] in H;
    try contradiction; try exact H.
  right. apply IH. exact H.
Qed.

(** What [repr] writes for a float is ASCII text. *)
Lemma format_repr_encodable (d p : Z) : encodable (format_repr d p) = true.
Proof.
  assert (Hlit : forall s c, In c (lit s) ->
            (0 <=? c) && (c <? 0x110000) && negb (is_surrogate c) = true).
  { intros s. apply encodable_forall. apply encodable_lit. }
  assert (Hds : forall c, In c (str_of_int d) ->
            (0 <=? c) && (c <? 0x110000) && negb (is_surrogate c) = true)
    by (apply Hlit).
  assert (Hzero : forall n c, In c (zeros n) ->
            (0 <=? c) && (c <? 0x110000) && negb (is_surrogate c) = true).
  { intros n c Hc. apply repeat_spec in Hc. subst c. reflexivity. }
  apply encodable_forall. intros c Hc. unfold format_repr in Hc.
  destruct ((Z.of_nat (List.length (str_of_int d)) + p <=? -4)
            || (16 <? Z.of_nat (List.length (str_of_int d)) + p)).
  - apply in_app_or in Hc. destruct Hc as [Hc | Hc].
    + destruct (str_of_int d) as [| c0 [| c1 more]].
      * contradiction.
      * apply Hds. exact Hc.
      * destruct Hc as [Hc | [Hc | Hc]].
        -- apply Hds. left. exact Hc.
        -- subst c. reflexivity.
        -- apply Hds. right. exact Hc.
    + apply in_app_or in Hc. destruct Hc as [Hc | Hc]; [eapply Hlit; exact Hc |].
      apply in_app_or in Hc. destruct Hc as [Hc | Hc].
      { destruct (_ <? 0); eapply Hlit; exact Hc. }
      apply in_app_or in Hc. destruct Hc as [Hc | Hc].
      { destruct (_ <? 10); [eapply Hlit; exact Hc | contradiction]. }
      eapply Hlit. exact Hc.
  - destruct (Z.of_nat (List.length (str_of_int d)) + p <=? 0).
    + apply in_app_or in Hc. destruct Hc as [Hc | Hc]; [eapply Hlit; exact Hc |].
      apply in_app_or in Hc. destruct Hc as [Hc | Hc];
        [eapply Hzero; exact Hc | apply Hds; exact Hc].
    + destruct (Z.of_nat (List.length (str_of_int d))
                <=? Z.of_nat (List.length (str_of_int d)) + p).
      * apply in_app_or in Hc. destruct Hc as [Hc | Hc]; [apply Hds; exact Hc |].
        apply in_app_or in Hc. destruct Hc as [Hc | Hc];
          [eapply Hzero; exact Hc | eapply Hlit; exact Hc].
      * apply in_app_or in Hc. destruct Hc as [Hc | Hc];
          [apply Hds; eapply in_firstn; exact Hc |].
        apply in_app_or in Hc. destruct Hc as [Hc | Hc];
          [eapply Hlit; exact Hc | apply Hds; eapply in_skipn; exact Hc].
Qed.

Lemma float_repr_encodable (x : float) : encodable (float_repr x) = true.
Proof.
  unfold float_repr.
  destruct (Prim2SF x) as [s | s | | s m e]; try (destruct s; apply encodable_lit).
  - apply encodable_lit.
  - destruct (shortest_digits (Z.pos m) e) as [d p].
    rewrite encodable_app, format_repr_encodable.
    destruct s; reflexivity.
Qed.

(** The text of a number or a boolean can always be encoded; the text of a
    [str] is the string itself. *)
Lemma format_value_encodable (v : pyvalue) :
  match v with PyStr s => encodable s = true | _ => True end ->
  encodable (format_value v) = true.
Proof.
  destruct v as [b | z | x | s]; cbn [format_value]; intros H.
  - destruct b; apply encodable_lit.
  - apply encodable_lit.
  - apply float_repr_encodable.
  - exact H.
Qed.

(** ** More on [payme_generate_checkout_url] *)

(** X1. The function returns a result exactly when [amount * 100] is a
    finite float and merchant_id, order_id and return_url hold no lone
    surrogate; in every other case it raises. *)
Theorem X1_checkout_returns_iff
    (merchant_id : str) (amount : float) (order_id return_url : str)
    (is_production : bool) :
  (exists r,
     payme_generate_checkout_url merchant_id amount order_id return_url
       is_production = Ok r)
  <-> float_is_finite (amount * 100)%float = true
      /\ encodable merchant_id = true
      /\ encodable order_id = true
      /\ encodable return_url = true.
Proof.
  split.
  - intros [r H]. apply payme_generate_checkout_url_inv in H.
    destruct H as [t [msg [Ht [Hmsg _]]]].
    split; [exact (int_of_float_ok_finite _ t Ht) |].
    apply utf8_encode_from_encodable in Hmsg.
    unfold checkout_params, str_of_int in Hmsg.
    rewrite !encodable_app, !encodable_lit in Hmsg. cbn [andb] in Hmsg.
    apply andb_true_iff in Hmsg. destruct Hmsg as [Hm Hmsg].
    apply andb_true_iff in Hmsg. destruct Hmsg as [Ho Hu].
    repeat split; assumption.
  - intros [Hfin [Hm [Ho Hu]]].
    destruct (int_of_float_finite _ Hfin) as [t Ht].
    destruct (encodable_utf8 _ (checkout_params_encodable merchant_id order_id t
                                  return_url Hm Ho Hu)
                (checkout_params merchant_id order_id t return_url) 0)
      as [msg Hmsg].
    eexists. apply (payme_generate_checkout_url_ok _ _ _ _ _ t msg Ht Hmsg).
Qed.

(** X2. When [amount * 100] is an infinity the function raises
    OverflowError, when it is a NaN it raises ValueError, whatever the
    other arguments are. The product of a finite amount can be an infinity. *)
Theorem X2_checkout_raises_on_non_finite_amount
    (merchant_id : str) (amount : float) (order_id return_url : str)
    (is_production : bool) :
  (float_is_infinite (amount * 100)%float = true ->
   payme_generate_checkout_url merchant_id amount order_id return_url
     is_production
   = Raise (OverflowError (lit "cannot convert float infinity to integer")))
  /\ (float_is_nan (amount * 100)%float = true ->
      payme_generate_checkout_url merchant_id amount order_id return_url
        is_production
      = Raise (ValueError (lit "cannot convert float NaN to integer"))).
Proof.
  unfold float_is_infinite, float_is_nan, payme_generate_checkout_url,
    int_of_float.
  destruct (Prim2SF (amount * 100)%float) as [s | s | | s m e];
    split; intros H; try discriminate H; reflexivity.
Qed.

(** An instance: 2^1020 UZS is a finite amount whose product with 100 is
    not. *)
Lemma X2_checkout_raises_on_non_finite_amount_witness :
  float_is_finite 0x1p1020 = true
  /\ payme_generate_checkout_url (lit "68944508cab302211ad21b06") 0x1p1020
       (lit "booking_123") (lit "https://myapp.com/ok") false
     = Raise (OverflowError (lit "cannot convert float infinity to integer")).
Proof.
  split; [vm_compute; reflexivity |].
  apply (proj1 (X2_checkout_raises_on_non_finite_amount
                  (lit "68944508cab302211ad21b06") 0x1p1020 (lit "booking_123")
                  (lit "https://myapp.com/ok") false)).
  vm_compute. reflexivity.
Defined.

(** Dropping the fraction and rounding give integers at most one apart,
    the first never larger in magnitude. *)
Lemma round_float_near_int_of_float (x : float) (t : Z) :
  int_of_float x = Ok t ->
  exists r, round_float x = Ok r /\ Z.abs (r - t) <= 1 /\ Z.abs t <= Z.abs r.
Proof.
  unfold int_of_float, round_float.
  destruct (Prim2SF x) as [s | s | | s m e]; intros H; try discriminate H;
    apply (f_equal (fun o => match o with Ok v => v | Raise _ => 0 end)) in H;
    cbv beta iota in H; subst t.
  - exists 0. repeat split; lia.
  - destruct (Z.leb_spec 0 e) as [He | He].
    + eexists. split; [reflexivity |].
      assert (0 <= Z.pos m * 2 ^ e)
        by (apply Z.mul_nonneg_nonneg; [lia | apply Z.pow_nonneg; lia]).
      destruct s; lia.
    + assert (Hpow : 0 < 2 ^ (- e)) by (apply Z.pow_pos_nonneg; lia).
      assert (Hq : 0 <= Z.pos m / 2 ^ (- e)) by (apply Z.div_pos; lia).
      destruct (2 * (Z.pos m mod 2 ^ (- e)) <? 2 ^ (- e));
        [| destruct (2 ^ (- e) <? 2 * (Z.pos m mod 2 ^ (- e)));
           [| destruct (Z.even (Z.pos m / 2 ^ (- e)))]];
        (eexists; split; [reflexivity |]; destruct s; lia).
Qed.

(** X3. The amount returned never differs by more than one tiyin from
    [round(amount * 100)], is never larger in magnitude, and is equal to it
    when the product is an integer. *)
Theorem X3_checkout_amount_within_one_of_rounding
    (merchant_id : str) (amount : float) (order_id return_url : str)
    (is_production : bool) (res : dict) :
  payme_generate_checkout_url merchant_id amount order_id return_url
    is_production = Ok res ->
  exists t r,
    dict_get res (lit "amount_tiyin") = Some (PyInt t)
    /\ spec_amount_minor amount = Ok r
    /\ Z.abs (r - t) <= 1
    /\ Z.abs t <= Z.abs r
    /\ (float_is_integral (amount * 100)%float = true -> t = r).
Proof.
  intros H. apply payme_generate_checkout_url_inv in H.
  destruct H as [t [msg [Ht [_ ->]]]].
  destruct (round_float_near_int_of_float _ t Ht) as [r [Hr [Hnear Hmag]]].
  exists t, r. split; [reflexivity |]. split; [exact Hr |].
  split; [exact Hnear |]. split; [exact Hmag |].
  intros Hint. apply round_float_integral in Hint.
  unfold spec_amount_minor in Hr. congruence.
Qed.

(** An instance: 0.29 UZS, where the two amounts are 28 and 29. *)
Lemma X3_checkout_amount_within_one_of_rounding_witness :
  exists t r,
    dict_get
      (checkout_result 0x1.28f5c28f5c28fp-2 (lit "booking_123") false 28
         (lit "bT02ODk0NDUwOGNhYjMwMjIxMWFkMjFiMDY7YWMub3JkZXJfaWQ9Ym9va2luZ18xMjM7YT0yODtjPWh0dHBzOi8vbXlhcHAuY29tL29r"))
      (lit "amount_tiyin") = Some (PyInt t)
    /\ spec_amount_minor 0x1.28f5c28f5c28fp-2 = Ok r
    /\ Z.abs (r - t) <= 1
    /\ Z.abs t <= Z.abs r
    /\ (float_is_integral (0x1.28f5c28f5c28fp-2 * 100)%float = true -> t = r).
Proof.
  apply (X3_checkout_amount_within_one_of_rounding
           (lit "68944508cab302211ad21b06") 0x1.28f5c28f5c28fp-2
           (lit "booking_123") (lit "https://myapp.com/ok") false).
  vm_compute. reflexivity.
Defined.

(** X4. The environment can be read off the result: the [environment]
    entry is [production] or [test], and the URL starts with
    [https://checkout.paycom.uz/] exactly in production and with
    [https://checkout.test.paycom.uz/] exactly otherwise. *)
Theorem X4_checkout_url_tells_environment
    (merchant_id : str) (amount : float) (order_id return_url : str)
    (is_production : bool) (res : dict) :
  payme_generate_checkout_url merchant_id amount order_id return_url
    is_production = Ok res ->
  dict_get res (lit "environment")
  = Some (PyStr (if is_production then lit "production" else lit "test"))
  /\ exists url,
       dict_get res (lit "payment_url") = Some (PyStr url)
       /\ startswith url (lit "https://checkout.paycom.uz/") = is_production
       /\ startswith url (lit "https://checkout.test.paycom.uz/")
          = negb is_production.
Proof.
  intros H. apply payme_generate_checkout_url_inv in H.
  destruct H as [t [msg [_ [_ ->]]]].
  split; [reflexivity |].
  eexists. split; [reflexivity |].
  destruct is_production; split; reflexivity.
Qed.

Lemma X4_checkout_url_tells_environment_witness :
  dict_get
    (checkout_result 50000 (lit "booking_123") true 5000000
       (lit "bT02ODk0NDUwOGNhYjMwMjIxMWFkMjFiMDY7YWMub3JkZXJfaWQ9Ym9va2luZ18xMjM7YT01MDAwMDAwO2M9aHR0cHM6Ly9teWFwcC5jb20vb2s="))
    (lit "environment") = Some (PyStr (lit "production"))
  /\ exists url,
       dict_get
         (checkout_result 50000 (lit "booking_123") true 5000000
            (lit "bT02ODk0NDUwOGNhYjMwMjIxMWFkMjFiMDY7YWMub3JkZXJfaWQ9Ym9va2luZ18xMjM7YT01MDAwMDAwO2M9aHR0cHM6Ly9teWFwcC5jb20vb2s="))
         (lit "payment_url") = Some (PyStr url)
       /\ startswith url (lit "https://checkout.paycom.uz/") = true
       /\ startswith url (lit "https://checkout.test.paycom.uz/") = negb true.
Proof.
  apply (X4_checkout_url_tells_environment (lit "68944508cab302211ad21b06")
           50000 (lit "booking_123") (lit "https://myapp.com/ok") true).
  vm_compute. reflexivity.
Defined.

(** X5. Nothing is escaped in the parameter string, so the split between
    merchant_id and order_id cannot be read back: moving the text
    [;ac.order_id=] and what follows it from the end of merchant_id to the
    front of order_id gives the same encoded segment and the same URL. *)
Theorem X5_checkout_params_not_escaped
    (merchant_id moved order_id : str) (amount : float) (return_url : str)
    (is_production : bool) (res : dict) :
  payme_generate_checkout_url (merchant_id ++ lit ";ac.order_id=" ++ moved)
    amount order_id return_url is_production = Ok res ->
  exists res',
    payme_generate_checkout_url merchant_id amount
      (moved ++ lit ";ac.order_id=" ++ order_id) return_url is_production
    = Ok res'
    /\ dict_get res' (lit "encoded_params") = dict_get res (lit "encoded_params")
    /\ dict_get res' (lit "payment_url") = dict_get res (lit "payment_url").
Proof.
  intros H. apply payme_generate_checkout_url_inv in H.
  destruct H as [t [msg [Ht [Hmsg ->]]]].
  assert (Hsame :
    checkout_params (merchant_id ++ lit ";ac.order_id=" ++ moved) order_id t
      return_url
    = checkout_params merchant_id (moved ++ lit ";ac.order_id=" ++ order_id) t
        return_url).
  { unfold checkout_params. rewrite <- !app_assoc. reflexivity. }
  rewrite Hsame in Hmsg.
  eexists. split.
  - apply (payme_generate_checkout_url_ok _ _ _ _ _ t msg Ht Hmsg).
  - split; reflexivity.
Qed.

Lemma X5_checkout_params_not_escaped_witness :
  exists res',
    payme_generate_checkout_url (lit "shop") 50000
      (lit "1" ++ lit ";ac.order_id=" ++ lit "2") (lit "https://myapp.com/ok")
      false = Ok res'
    /\ dict_get res' (lit "encoded_params")
       = dict_get
           (checkout_result 50000 (lit "2") false 5000000
              (lit "bT1zaG9wO2FjLm9yZGVyX2lkPTE7YWMub3JkZXJfaWQ9MjthPTUwMDAwMDA7Yz1odHRwczovL215YXBwLmNvbS9vaw=="))
           (lit "encoded_params")
    /\ dict_get res' (lit "payment_url")
       = dict_get
           (checkout_result 50000 (lit "2") false 5000000
              (lit "bT1zaG9wO2FjLm9yZGVyX2lkPTE7YWMub3JkZXJfaWQ9MjthPTUwMDAwMDA7Yz1odHRwczovL215YXBwLmNvbS9vaw=="))
           (lit "payment_url").
Proof.
  apply (X5_checkout_params_not_escaped (lit "shop") (lit "1") (lit "2") 50000
           (lit "https://myapp.com/ok") false).
  vm_compute. reflexivity.
Defined.

(** ** More on [payme_verify_webhook_auth] *)

Lemma split_from_first_sep (t rest cur : str) :
  ~ In 32 t ->
  split_from [32] (t ++ 32 :: rest) O cur
  = (rev cur ++ t) :: split_from [32] rest O [].
Proof.
  revert cur. induction t as [| c t IH]; intros cur Hno.
  - cbn. rewrite app_nil_r. reflexivity.
  - cbn [app split_from startswith].
    destruct (Z.eqb_spec c 32) as [-> | Hc].
    + exfalso. apply Hno. left. reflexivity.
    + cbn [andb]. rewrite IH.
      * cbn [rev]. rewrite <- app_assoc. reflexivity.
      * intros Hin. apply Hno. right. exact Hin.
Qed.

(** The token ends at the next space. *)
Lemma split_basic_token_rest (t rest : str) :
  ~ In 32 t ->
  getitem (split (lit "Basic " ++ t ++ lit " " ++ rest) (lit " ")) 1 = Ok t.
Proof.
  intros Hno. unfold split. cbn.
  rewrite (split_from_first_sep t rest [] Hno). reflexivity.
Qed.

(** The result depends on the header only through what its token decodes
    to. *)
Lemma payme_verify_same_decoding (header1 header2 key token1 token2 : str) :
  startswith header1 (lit "Basic ") = true ->
  startswith header2 (lit "Basic ") = true ->
  getitem (split header1 (lit " ")) 1 = Ok token1 ->
  getitem (split header2 (lit " ")) 1 = Ok token2 ->
  base64.b64decode token1 = base64.b64decode token2 ->
  payme_verify_webhook_auth header1 key = payme_verify_webhook_auth header2 key.
Proof.
  intros Hs1 Hs2 Ht1 Ht2 Hdec. unfold payme_verify_webhook_auth.
  rewrite Hs1, Hs2, Ht1, Ht2. cbn [negb bind]. rewrite Hdec. reflexivity.
Qed.

Lemma auth_result_entries (key decoded : str) :
  (dict_get (auth_result key decoded) (lit "valid") = Some (PyBool true)
   <-> substring key decoded)
  /\ (substring key decoded ->
      dict_get (auth_result key decoded) (lit "decoded_auth")
      = Some (PyStr decoded)).
Proof.
  pose proof (contains_iff key decoded) as Hiff.
  assert (Hvalid : dict_get (auth_result key decoded) (lit "valid")
                   = Some (PyBool (contains key decoded))) by reflexivity.
  assert (Hauth : dict_get (auth_result key decoded) (lit "decoded_auth")
                  = Some (PyStr (if contains key decoded
                                 then decoded else lit "[hidden]")))
    by reflexivity.
  rewrite Hvalid, Hauth. destruct (contains key decoded).
  - split; [split; [intros _; apply Hiff; reflexivity | reflexivity] |].
    reflexivity.
  - split; [split; [discriminate | intros H; apply Hiff in H; discriminate H] |].
    intros H. apply Hiff in H. discriminate H.
Qed.

(** Every character of an encoding is one the decoder looks at. *)
Lemma b2a_significant (v : Z) :
  0 <= v < 64 -> base64_significant (base64.b2a v) = true.
Proof.
  intros Hv. unfold base64_significant. rewrite (b2a_a2b v Hv).
  apply orb_true_r.
Qed.

Lemma b64encode_significant (b : bytes) :
  Forall is_byte b ->
  Forall (fun c => base64_significant c = true) (base64.b64encode b).
Proof.
  induction b as [| b0 | b0 b1 | b0 b1 b2 rest IH] using list_ind3; intros Hb;
    cbn [base64.b64encode].
  - constructor.
  - apply Forall_inv in Hb. apply is_byte_sextets in Hb.
    repeat (apply Forall_cons; [first [apply b2a_significant; lia | reflexivity] |]).
    constructor.
  - pose proof (Forall_inv Hb) as H0.
    pose proof (Forall_inv (Forall_inv_tail Hb)) as H1.
    apply is_byte_sextets in H0. apply is_byte_sextets in H1.
    repeat (apply Forall_cons; [first [apply b2a_significant; lia | reflexivity] |]).
    constructor.
  - pose proof (Forall_inv Hb) as H0.
    pose proof (Forall_inv (Forall_inv_tail Hb)) as H1.
    pose proof (Forall_inv (Forall_inv_tail (Forall_inv_tail Hb))) as H2.
    apply is_byte_sextets in H0. apply is_byte_sextets in H1.
    apply is_byte_sextets in H2.
    repeat (apply Forall_cons; [apply b2a_significant; lia |]).
    apply IH. exact (Forall_inv_tail (Forall_inv_tail (Forall_inv_tail Hb))).
Qed.

Lemma b64encode_no_space (b : bytes) :
  Forall is_byte b -> ~ In 32 (base64.b64encode b).
Proof.
  intros Hb Hin. pose proof (b64encode_significant b Hb) as Hall.
  rewrite Forall_forall in Hall. specialize (Hall 32 Hin).
  discriminate Hall.
Qed.

(** The decoder does not look at the other characters. *)
Lemma a2b_loop_skips (s : bytes) :
  forall quad_pos leftchar pads out,
    base64.a2b_loop (filter base64_significant s) quad_pos leftchar pads out
    = base64.a2b_loop s quad_pos leftchar pads out.
Proof.
  induction s as [| c s IH]; intros quad_pos leftchar pads out.
  - reflexivity.
  - cbn [filter]. unfold base64_significant at 1.
    destruct (c =? base64.pad) eqn:Epad; cbn [orb].
    + cbn [base64.a2b_loop]. rewrite Epad.
      destruct (2 <=? quad_pos)%nat; [| apply IH].
      destruct (4 <=? Z.of_nat quad_pos + (pads + 1)); [reflexivity | apply IH].
    + destruct (base64.a2b c) as [v |] eqn:Ea2b.
      * cbn [base64.a2b_loop]. rewrite Epad, Ea2b.
        destruct quad_pos as [| [| [| q]]]; apply IH.
      * cbn [base64.a2b_loop]. rewrite Epad, Ea2b. apply IH.
Qed.

(** X6. Only the text between the first and the second space is the
    token: whatever follows a second space does not change the result. *)
Theorem X6_payme_verify_ignores_text_after_token (token rest merchant_key : str) :
  ~ In 32 token ->
  payme_verify_webhook_auth (lit "Basic " ++ token ++ lit " " ++ rest)
    merchant_key
  = payme_verify_webhook_auth (lit "Basic " ++ token) merchant_key.
Proof.
  intros Hno.
  apply (payme_verify_same_decoding _ _ _ token token).
  - apply startswith_app.
  - apply startswith_app.
  - apply split_basic_token_rest. exact Hno.
  - apply split_basic_token. exact Hno.
  - reflexivity.
Qed.

Lemma X6_payme_verify_ignores_text_after_token_witness :
  payme_verify_webhook_auth
    (lit "Basic " ++ lit "bWVyY2hhbnRfaWQ6c2VjcmV0X2tleQ==" ++ lit " "
       ++ lit "not base64 at all") (lit "secret_key")
  = payme_verify_webhook_auth
      (lit "Basic " ++ lit "bWVyY2hhbnRfaWQ6c2VjcmV0X2tleQ==") (lit "secret_key").
Proof.
  apply (X6_payme_verify_ignores_text_after_token
           (lit "bWVyY2hhbnRfaWQ6c2VjcmV0X2tleQ==") (lit "not base64 at all")
           (lit "secret_key")).
  vm_compute. intros H. repeat (destruct H as [H | H]; [discriminate H |]).
  exact H.
Defined.

(** X7. A header with an empty token, ["Basic "] alone or ["Basic "]
    followed by a space and anything, decodes to the empty text: it is
    accepted exactly when the key is the empty string, and the function
    does not raise. *)
Theorem X7_payme_verify_empty_token (merchant_key rest : str) :
  result_valid (payme_verify_webhook_auth (lit "Basic ") merchant_key)
  = Some (negb (truthy merchant_key))
  /\ result_valid
       (payme_verify_webhook_auth (lit "Basic  " ++ rest) merchant_key)
     = Some (negb (truthy merchant_key)).
Proof.
  assert (Hempty : forall header,
            startswith header (lit "Basic ") = true ->
            getitem (split header (lit " ")) 1 = Ok [] ->
            result_valid (payme_verify_webhook_auth header merchant_key)
            = Some (negb (truthy merchant_key))).
  { intros header Hs Ht.
    rewrite (payme_verify_decoded header merchant_key [] Hs Ht [] []
               eq_refl eq_refl).
    destruct merchant_key; reflexivity. }
  split.
  - apply Hempty; reflexivity.
  - apply Hempty.
    + apply (startswith_app (lit "Basic ") (lit " " ++ rest)).
    + exact (split_basic_token_rest [] rest (fun H => H)).
Qed.

(** X8. Encoding then verifying: for credentials [decoded] that can be
    encoded, the header ["Basic "] followed by the Base64 text of their
    UTF-8 octets is accepted exactly when the key is a substring of the
    credentials, and an accepted result returns them. *)
Theorem X8_payme_verify_accepts_encoded_credentials
    (decoded merchant_key : str) (msg : bytes) :
  utf8_encode decoded = Ok msg ->
  exists r,
    payme_verify_webhook_auth (lit "Basic " ++ base64.b64encode msg) merchant_key
    = Ok r
    /\ (dict_get r (lit "valid") = Some (PyBool true)
        <-> substring merchant_key decoded)
    /\ (substring merchant_key decoded ->
        dict_get r (lit "decoded_auth") = Some (PyStr decoded)).
Proof.
  intros Hmsg.
  pose proof (utf8_encode_from_bytes _ _ _ _ Hmsg) as Hbytes.
  exists (auth_result merchant_key decoded). split.
  - apply (payme_verify_decoded _ _ (base64.b64encode msg)
             (startswith_app _ _)
             (split_basic_token _ (b64encode_no_space msg Hbytes)) msg decoded).
    + apply b64decode_b64encode. exact Hbytes.
    + exact (utf8_decode_encode _ _ _ _ Hmsg msg 0).
  - apply auth_result_entries.
Qed.

Lemma X8_payme_verify_accepts_encoded_credentials_witness :
  exists r,
    payme_verify_webhook_auth
      (lit "Basic " ++ base64.b64encode (lit "merchant_id:secret_key"))
      (lit "secret_key") = Ok r
    /\ (dict_get r (lit "valid") = Some (PyBool true)
        <-> substring (lit "secret_key") (lit "merchant_id:secret_key"))
    /\ (substring (lit "secret_key") (lit "merchant_id:secret_key") ->
        dict_get r (lit "decoded_auth")
        = Some (PyStr (lit "merchant_id:secret_key"))).
Proof.
  apply (X8_payme_verify_accepts_encoded_credentials
           (lit "merchant_id:secret_key") (lit "secret_key")
           (lit "merchant_id:secret_key")).
  vm_compute. reflexivity.
Defined.

(** X9. Base64 decoding is lenient: in an ASCII token, the characters that
    are neither in the alphabet nor [=] are skipped, so removing them does
    not change the result. *)
Theorem X9_payme_verify_skips_foreign_characters (token merchant_key : str) :
  Forall (fun c => is_ascii c = true) token ->
  ~ In 32 token ->
  payme_verify_webhook_auth (lit "Basic " ++ filter base64_significant token)
    merchant_key
  = payme_verify_webhook_auth (lit "Basic " ++ token) merchant_key.
Proof.
  intros Hascii Hno.
  assert (Hascii' : Forall (fun c => is_ascii c = true)
                      (filter base64_significant token)).
  { rewrite Forall_forall in *. intros c Hc. apply filter_In in Hc.
    apply Hascii. apply Hc. }
  assert (Hno' : ~ In 32 (filter base64_significant token)).
  { intros Hin. apply filter_In in Hin. apply Hno. apply Hin. }
  apply (payme_verify_same_decoding _ _ _ (filter base64_significant token) token).
  - apply startswith_app.
  - apply startswith_app.
  - apply split_basic_token. exact Hno'.
  - apply split_basic_token. exact Hno.
  - unfold base64.b64decode, ascii_encode.
    rewrite (ascii_encode_ascii _ Hascii), (ascii_encode_ascii _ Hascii').
    cbn [try_except bind]. unfold base64.a2b_base64. apply a2b_loop_skips.
Qed.

Lemma X9_payme_verify_skips_foreign_characters_witness :
  payme_verify_webhook_auth
    (lit "Basic " ++ filter base64_significant (lit "bWVy-Y2hh.bnRf_aWQ6c2Vj!cmV0X2tleQ=="))
    (lit "secret_key")
  = payme_verify_webhook_auth
      (lit "Basic " ++ lit "bWVy-Y2hh.bnRf_aWQ6c2Vj!cmV0X2tleQ==") (lit "secret_key").
Proof.
  apply (X9_payme_verify_skips_foreign_characters
           (lit "bWVy-Y2hh.bnRf_aWQ6c2Vj!cmV0X2tleQ==") (lit "secret_key")).
  - vm_compute. repeat constructor.
  - vm_compute. intros H. repeat (destruct H as [H | H]; [discriminate H |]).
    exact H.
Defined.

Lemma substring_trans (a b c : str) :
  substring a b -> substring b c -> substring a c.
Proof.
  intros [p1 [q1 ->]] [p2 [q2 ->]].
  exists (p2 ++ p1), (q1 ++ q2). rewrite <- !app_assoc. reflexivity.
Qed.

(** When the result is valid, the header passed the scheme test and its
    token decoded to a text that holds the key; the same text is what any
    other key is looked for in. *)
Lemma payme_verify_valid_inv (header key : str) :
  result_valid (payme_verify_webhook_auth header key) = Some true ->
  exists decoded,
    contains key decoded = true
    /\ forall key',
         payme_verify_webhook_auth header key' = Ok (auth_result key' decoded).
Proof.
  intros H.
  destruct (startswith header (lit "Basic ")) eqn:Hs.
  - destruct (split_basic_has_token _ Hs) as [token Ht].
    destruct (base64.b64decode token) as [raw | e1] eqn:Hraw.
    + destruct (utf8_decode raw) as [decoded | e2] eqn:Hdec.
      * rewrite (payme_verify_decoded _ key token Hs Ht raw decoded Hraw Hdec)
          in H.
        exists decoded. split.
        -- change (Some (contains key decoded) = Some true) in H. congruence.
        -- intros key'.
           exact (payme_verify_decoded _ key' token Hs Ht raw decoded Hraw Hdec).
      * rewrite (payme_verify_utf8_error _ key token Hs Ht raw e2 Hraw Hdec) in H.
        discriminate H.
    + rewrite (payme_verify_base64_error _ key token Hs Ht e1 Hraw) in H.
      discriminate H.
  - rewrite (payme_verify_wrong_scheme _ key Hs) in H. discriminate H.
Qed.

(** X20. The check is a substring test, so it is inherited by the parts
    of a key: a header that is valid for a key is valid for every
    substring of that key, the empty string included. *)
Theorem X20_payme_verify_accepts_parts_of_key (header key part : str) :
  result_valid (payme_verify_webhook_auth header key) = Some true ->
  substring part key ->
  result_valid (payme_verify_webhook_auth header part) = Some true.
Proof.
  intros Hvalid Hpart.
  destruct (payme_verify_valid_inv header key Hvalid) as [decoded [Hkey Hall]].
  assert (Hin : contains part decoded = true).
  { apply contains_iff. apply (substring_trans part key decoded Hpart).
    apply contains_iff. exact Hkey. }
  rewrite (Hall part).
  change (Some (contains part decoded) = Some true).
  rewrite Hin. reflexivity.
Qed.

Lemma X20_payme_verify_accepts_parts_of_key_witness :
  result_valid
    (payme_verify_webhook_auth (lit "Basic bWVyY2hhbnRfaWQ6c2VjcmV0X2tleQ==")
       (lit "secret")) = Some true.
Proof.
  apply (X20_payme_verify_accepts_parts_of_key
           (lit "Basic bWVyY2hhbnRfaWQ6c2VjcmV0X2tleQ==") (lit "secret_key")
           (lit "secret")).
  - vm_compute. reflexivity.
  - exists [], (lit "_key"). reflexivity.
Defined.

(** ** More on [click_generate_invoice_url] *)

Lemma click_invoice_url_without_user
    (service_id merchant_id : str) (amount : pyvalue)
    (transaction_param return_url : str) (is_production : bool) :
  dict_get
    (click_generate_invoice_url service_id merchant_id amount transaction_param
       return_url None is_production) (lit "invoice_url")
  = Some (PyStr
      (lit "https://my.click.uz/services/pay?service_id=" ++ service_id
       ++ lit "&merchant_id=" ++ merchant_id
       ++ lit "&amount=" ++ format_value amount
       ++ lit "&transaction_param=" ++ transaction_param
       ++ lit "&return_url=" ++ return_url)).
Proof. destruct is_production; reflexivity. Qed.

Lemma click_invoice_url_with_user
    (service_id merchant_id : str) (amount : pyvalue)
    (transaction_param return_url : str) (c : Z) (user : str)
    (is_production : bool) :
  dict_get
    (click_generate_invoice_url service_id merchant_id amount transaction_param
       return_url (Some (c :: user)) is_production) (lit "invoice_url")
  = Some (PyStr
      (lit "https://my.click.uz/services/pay?service_id=" ++ service_id
       ++ lit "&merchant_id=" ++ merchant_id
       ++ lit "&amount=" ++ format_value amount
       ++ lit "&transaction_param=" ++ transaction_param
       ++ lit "&return_url=" ++ return_url
       ++ lit "&merchant_user_id=" ++ c :: user)).
Proof. destruct is_production; reflexivity. Qed.

(** X10. The values of the query string are not escaped: a return_url that
    ends with [&merchant_user_id=<user>] gives the same URL as passing
    that user id as merchant_user_id. *)
Theorem X10_click_query_values_not_escaped
    (service_id merchant_id : str) (amount : pyvalue)
    (transaction_param return_url user : str) (is_production : bool) :
  truthy user = true ->
  dict_get
    (click_generate_invoice_url service_id merchant_id amount transaction_param
       (return_url ++ lit "&merchant_user_id=" ++ user) None is_production)
    (lit "invoice_url")
  = dict_get
      (click_generate_invoice_url service_id merchant_id amount
         transaction_param return_url (Some user) is_production)
      (lit "invoice_url").
Proof.
  intros Huser. destruct user as [| c user]; [discriminate Huser |].
  rewrite click_invoice_url_without_user, click_invoice_url_with_user.
  reflexivity.
Qed.

Lemma X10_click_query_values_not_escaped_witness :
  dict_get
    (click_generate_invoice_url (lit "12345") (lit "67890") (PyFloat 150000)
       (lit "booking_456")
       (lit "https://myapp.com/cb" ++ lit "&merchant_user_id=" ++ lit "42")
       None false)
    (lit "invoice_url")
  = dict_get
      (click_generate_invoice_url (lit "12345") (lit "67890") (PyFloat 150000)
         (lit "booking_456") (lit "https://myapp.com/cb") (Some (lit "42")) false)
      (lit "invoice_url").
Proof.
  apply (X10_click_query_values_not_escaped (lit "12345") (lit "67890")
           (PyFloat 150000) (lit "booking_456") (lit "https://myapp.com/cb")
           (lit "42") false).
  reflexivity.
Defined.

(** ** More on [click_verify_webhook_signature] *)

Lemma click_verify_inv
    (click_trans_id service_id secret_key merchant_trans_id : str)
    (amount : pyvalue) (action : Z) (sign_time received : str) (r : dict) :
  click_verify_webhook_signature click_trans_id service_id secret_key
    merchant_trans_id amount action sign_time received = Ok r ->
  exists msg,
    utf8_encode (click_trans_id ++ service_id ++ secret_key ++ merchant_trans_id
                 ++ format_value amount ++ str_of_int action ++ sign_time)
    = Ok msg
    /\ dict_get r (lit "valid")
       = Some (PyBool (str_eqb (hashlib.hexdigest (hashlib.md5 msg)) received)).
Proof.
  intros H.
  destruct (utf8_encode (click_trans_id ++ service_id ++ secret_key
                         ++ merchant_trans_id ++ format_value amount
                         ++ str_of_int action ++ sign_time)) as [msg | e] eqn:E.
  - rewrite (click_verify_ok _ _ _ _ _ _ _ received msg E) in H.
    exists msg. split; [reflexivity |].
    apply (f_equal (fun o => match o with Ok v => v | Raise _ => [] end)) in H.
    cbv beta iota in H. subst r. reflexivity.
  - unfold click_verify_webhook_signature in H. rewrite E in H. discriminate H.
Qed.

(** A text that is not [n] lowercase hexadecimal characters is not the
    hex digest of [n / 2] octets. *)
Lemma malformed_is_not_digest (digest : bytes) (received : str) :
  List.length received <> (2 * List.length digest)%nat
  \/ Exists (fun c => is_lower_hex c = false) received ->
  str_eqb (hashlib.hexdigest digest) received = false.
Proof.
  intros H. apply str_eqb_neq. intros Heq. subst received.
  destruct H as [H | H].
  - apply H. apply hexdigest_length.
  - apply Exists_exists in H. destruct H as [c [Hin Hc]].
    pose proof (hexdigest_lower digest) as Hall. rewrite Forall_forall in Hall.
    rewrite (Hall c Hin) in Hc. discriminate Hc.
Qed.

(** X11. The signed text is the plain concatenation of the fields, so it
    does not tell where one field ends: moving text from the end of a
    field to the front of the next one (click_trans_id to service_id,
    service_id to secret_key, secret_key to merchant_trans_id) leaves the
    whole result unchanged. *)
Theorem X11_click_signature_ignores_field_boundaries
    (click_trans_id service_id secret_key merchant_trans_id moved : str)
    (amount : pyvalue) (action : Z) (sign_time received : str) :
  click_verify_webhook_signature (click_trans_id ++ moved) service_id secret_key
    merchant_trans_id amount action sign_time received
  = click_verify_webhook_signature click_trans_id (moved ++ service_id)
      secret_key merchant_trans_id amount action sign_time received
  /\ click_verify_webhook_signature click_trans_id (service_id ++ moved)
       secret_key merchant_trans_id amount action sign_time received
     = click_verify_webhook_signature click_trans_id service_id
         (moved ++ secret_key) merchant_trans_id amount action sign_time received
  /\ click_verify_webhook_signature click_trans_id service_id
       (secret_key ++ moved) merchant_trans_id amount action sign_time received
     = click_verify_webhook_signature click_trans_id service_id secret_key
         (moved ++ merchant_trans_id) amount action sign_time received.
Proof.
  unfold click_verify_webhook_signature.
  repeat split; rewrite <- !app_assoc; reflexivity.
Qed.

(** X12. A received signature that is not made of 32 lowercase
    hexadecimal characters (an uppercase rendering, a truncated one) is
    rejected whatever the fields are: the comparison is exact. *)
Theorem X12_click_rejects_malformed_signature
    (click_trans_id service_id secret_key merchant_trans_id : str)
    (amount : pyvalue) (action : Z) (sign_time received : str) (r : dict) :
  click_verify_webhook_signature click_trans_id service_id secret_key
    merchant_trans_id amount action sign_time received = Ok r ->
  List.length received <> 32%nat
  \/ Exists (fun c => is_lower_hex c = false) received ->
  dict_get r (lit "valid") = Some (PyBool false).
Proof.
  intros H Hbad. apply click_verify_inv in H. destruct H as [msg [_ ->]].
  rewrite malformed_is_not_digest; [reflexivity |].
  rewrite md5_length. exact Hbad.
Qed.

(** An instance: the signature of the scenario in uppercase. *)
Lemma X12_click_rejects_malformed_signature_witness :
  exists r,
    click_verify_webhook_signature (lit "123") (lit "456") (lit "s3cret")
      (lit "m1") (PyStr (lit "1000")) 1 (lit "2024-01-01")
      (lit "9EEF0A099AB8AD0A4C92AEE638A59962") = Ok r
    /\ dict_get r (lit "valid") = Some (PyBool false).
Proof.
  eexists. split; [vm_compute; reflexivity |].
  apply (X12_click_rejects_malformed_signature (lit "123") (lit "456")
           (lit "s3cret") (lit "m1") (PyStr (lit "1000")) 1 (lit "2024-01-01")
           (lit "9EEF0A099AB8AD0A4C92AEE638A59962")).
  - vm_compute. reflexivity.
  - right. apply Exists_cons_tl. apply Exists_cons_hd. reflexivity.
Defined.


(** ** More on [octo_verify_webhook_signature] *)

Lemma octo_verify_inv
    (octo_payment_uuid status received secret_key : str) (r : dict) :
  octo_verify_webhook_signature octo_payment_uuid status received secret_key
  = Ok r ->
  exists msg,
    utf8_encode (octo_payment_uuid ++ status ++ secret_key) = Ok msg
    /\ dict_get r (lit "valid")
       = Some (PyBool (str_eqb (hashlib.hexdigest (hashlib.sha256 msg)) received)).
Proof.
  intros H.
  destruct (utf8_encode (octo_payment_uuid ++ status ++ secret_key))
    as [msg | e] eqn:E.
  - rewrite (octo_verify_ok _ _ received _ msg E) in H.
    exists msg. split; [reflexivity |].
    apply (f_equal (fun o => match o with Ok v => v | Raise _ => [] end)) in H.
    cbv beta iota in H. subst r. reflexivity.
  - unfold octo_verify_webhook_signature in H. rewrite E in H. discriminate H.
Qed.

(** X14. The signed text does not tell where payment_uuid ends and status
    begins, nor where status ends and the secret begins: moving text
    across either boundary leaves the whole result unchanged. *)
Theorem X14_octo_signature_ignores_field_boundaries
    (octo_payment_uuid status received secret_key moved : str) :
  octo_verify_webhook_signature (octo_payment_uuid ++ moved) status received
    secret_key
  = octo_verify_webhook_signature octo_payment_uuid (moved ++ status) received
      secret_key
  /\ octo_verify_webhook_signature octo_payment_uuid (status ++ moved) received
       secret_key
     = octo_verify_webhook_signature octo_payment_uuid status received
         (moved ++ secret_key).
Proof.
  unfold octo_verify_webhook_signature.
  split; rewrite <- !app_assoc; reflexivity.
Qed.

(** X15. A received signature that is not made of 64 lowercase
    hexadecimal characters is rejected whatever the fields are. *)
Theorem X15_octo_rejects_malformed_signature
    (octo_payment_uuid status received secret_key : str) (r : dict) :
  octo_verify_webhook_signature octo_payment_uuid status received secret_key
  = Ok r ->
  List.length received <> 64%nat
  \/ Exists (fun c => is_lower_hex c = false) received ->
  dict_get r (lit "valid") = Some (PyBool false).
Proof.
  intros H Hbad. apply octo_verify_inv in H. destruct H as [msg [_ ->]].
  rewrite malformed_is_not_digest; [reflexivity |].
  rewrite sha256_length. exact Hbad.
Qed.

(** An instance: the signature of the scenario cut to its first 32
    characters. *)
Lemma X15_octo_rejects_malformed_signature_witness :
  exists r,
    octo_verify_webhook_signature (lit "uuid-1") (lit "succeeded")
      (lit "90186e48e54c2c3a8557466694ea979d") (lit "k") = Ok r
    /\ dict_get r (lit "valid") = Some (PyBool false).
Proof.
  eexists. split; [vm_compute; reflexivity |].
  apply (X15_octo_rejects_malformed_signature (lit "uuid-1") (lit "succeeded")
           (lit "90186e48e54c2c3a8557466694ea979d") (lit "k")).
  - vm_compute. reflexivity.
  - left. vm_compute. discriminate.
Defined.

(** X16. The function returns exactly when payment_uuid, status and the
    secret hold no lone surrogate; the received signature is only compared
    and may be anything. *)
Theorem X16_octo_verify_returns_iff
    (octo_payment_uuid status received secret_key : str) :
  (exists r,
     octo_verify_webhook_signature octo_payment_uuid status received secret_key
     = Ok r)
  <-> encodable octo_payment_uuid = true
      /\ encodable status = true
      /\ encodable secret_key = true.
Proof.
  split.
  - intros [r H]. apply octo_verify_inv in H. destruct H as [msg [Hmsg _]].
    apply utf8_encode_from_encodable in Hmsg. rewrite !encodable_app in Hmsg.
    apply andb_true_iff in Hmsg. destruct Hmsg as [Hu Hmsg].
    apply andb_true_iff in Hmsg. destruct Hmsg as [Hs Hk].
    repeat split; assumption.
  - intros (Hu & Hs & Hk).
    assert (Hall : encodable (octo_payment_uuid ++ status ++ secret_key) = true)
      by (rewrite !encodable_app, Hu, Hs, Hk; reflexivity).
    apply encodable_iff in Hall. destruct Hall as [msg Hmsg].
    eexists. apply (octo_verify_ok _ _ received _ msg Hmsg).
Qed.

(** ** [octo_create_payment] *)

Lemma octo_create_payment_ok
    (api_key secret_key : str) (amount : pyvalue)
    (transaction_id return_url : str) (auto_capture : bool) (currency : str)
    (is_production : bool) (msg : bytes) :
  utf8_encode (transaction_id ++ format_value amount ++ currency ++ secret_key)
  = Ok msg ->
  exists r,
    octo_create_payment api_key secret_key amount transaction_id return_url
      auto_capture currency is_production = Ok r
    /\ payload_signature (Ok r) = Some (hashlib.hexdigest (hashlib.sha256 msg))
    /\ object_get r (lit "api_endpoint")
       = Some (Scalar (PyStr (if is_production
                              then lit "https://api.octo.uz/v1/payment/init"
                              else lit "https://api.test.octo.uz/v1/payment/init")))
    /\ object_get r (lit "environment")
       = Some (Scalar (PyStr (if is_production
                              then lit "production" else lit "test"))).
Proof.
  intros H. unfold octo_create_payment. rewrite H. cbn [bind].
  eexists. split; [reflexivity |]. repeat split; reflexivity.
Qed.

Lemma octo_create_payment_inv
    (api_key secret_key : str) (amount : pyvalue)
    (transaction_id return_url : str) (auto_capture : bool) (currency : str)
    (is_production : bool) (sig : str) :
  payload_signature
    (octo_create_payment api_key secret_key amount transaction_id return_url
       auto_capture currency is_production) = Some sig ->
  exists msg,
    utf8_encode (transaction_id ++ format_value amount ++ currency ++ secret_key)
    = Ok msg
    /\ sig = hashlib.hexdigest (hashlib.sha256 msg).
Proof.
  intros H.
  destruct (utf8_encode (transaction_id ++ format_value amount ++ currency
                         ++ secret_key)) as [msg | e] eqn:E.
  - exists msg. split; [reflexivity |].
    destruct (octo_create_payment_ok api_key secret_key amount transaction_id
                return_url auto_capture currency is_production msg E)
      as [r [Hr [Hsig _]]].
    rewrite Hr, Hsig in H. congruence.
  - unfold octo_create_payment in H. rewrite E in H. discriminate H.
Qed.

(** X17. The signature of the payload is the SHA-256 digest, 64 lowercase
    hexadecimal characters, of the UTF-8 octets of transaction_id, amount,
    currency and secret_key written one after the other; the endpoint is
    [/v1/payment/init] on [api.octo.uz] in production and on
    [api.test.octo.uz] otherwise. *)
Theorem X17_octo_create_payment_signature
    (api_key secret_key : str) (amount : pyvalue)
    (transaction_id return_url : str) (auto_capture : bool) (currency : str)
    (is_production : bool) (msg : bytes) :
  utf8_encode (transaction_id ++ format_value amount ++ currency ++ secret_key)
  = Ok msg ->
  exists r,
    octo_create_payment api_key secret_key amount transaction_id return_url
      auto_capture currency is_production = Ok r
    /\ payload_signature (Ok r) = Some (hashlib.hexdigest (hashlib.sha256 msg))
    /\ List.length (hashlib.hexdigest (hashlib.sha256 msg)) = 64%nat
    /\ Forall (fun c => is_lower_hex c = true)
         (hashlib.hexdigest (hashlib.sha256 msg))
    /\ object_get r (lit "api_endpoint")
       = Some (Scalar (PyStr (if is_production
                              then lit "https://api.octo.uz/v1/payment/init"
                              else lit "https://api.test.octo.uz/v1/payment/init"))).
Proof.
  intros H.
  destruct (octo_create_payment_ok api_key secret_key amount transaction_id
              return_url auto_capture currency is_production msg H)
    as [r [Hr [Hsig [Hend _]]]].
  exists r. split; [exact Hr |]. split; [exact Hsig |].
  split; [rewrite hexdigest_length, sha256_length; reflexivity |].
  split; [apply hexdigest_lower | exact Hend].
Qed.

(** An instance: 200000.0 UZS for transaction [tx-1] under the secret [k];
    the signed text is [tx-1200000.0UZSk]. *)
Lemma X17_octo_create_payment_signature_witness :
  exists r,
    octo_create_payment (lit "pk") (lit "k") (PyFloat 200000) (lit "tx-1")
      (lit "https://myapp.com/ok") true (lit "UZS") false = Ok r
    /\ payload_signature (Ok r)
       = Some (hashlib.hexdigest (hashlib.sha256 (lit "tx-1200000.0UZSk")))
    /\ List.length (hashlib.hexdigest (hashlib.sha256 (lit "tx-1200000.0UZSk")))
       = 64%nat
    /\ Forall (fun c => is_lower_hex c = true)
         (hashlib.hexdigest (hashlib.sha256 (lit "tx-1200000.0UZSk")))
    /\ object_get r (lit "api_endpoint")
       = Some (Scalar (PyStr (lit "https://api.test.octo.uz/v1/payment/init"))).
Proof.
  apply (X17_octo_create_payment_signature (lit "pk") (lit "k") (PyFloat 200000)
           (lit "tx-1") (lit "https://myapp.com/ok") true (lit "UZS") false
           (lit "tx-1200000.0UZSk")).
  vm_compute. reflexivity.
Defined.

(** X18. The two Octo signatures are the same function of a text: the
    signature [octo_create_payment] puts in the payload is accepted by
    [octo_verify_webhook_signature], under the same secret, as the
    signature of a webhook whose payment_uuid is the transaction_id and
    whose status is the text of the amount followed by the currency. *)
Theorem X18_octo_create_signature_verifies_as_webhook
    (api_key secret_key : str) (amount : pyvalue)
    (transaction_id return_url : str) (auto_capture : bool) (currency : str)
    (is_production : bool) (sig : str) :
  payload_signature
    (octo_create_payment api_key secret_key amount transaction_id return_url
       auto_capture currency is_production) = Some sig ->
  result_valid
    (octo_verify_webhook_signature transaction_id
       (format_value amount ++ currency) sig secret_key) = Some true.
Proof.
  intros H. apply octo_create_payment_inv in H. destruct H as [msg [Hmsg ->]].
  assert (Hmsg' : utf8_encode (transaction_id ++ (format_value amount ++ currency)
                               ++ secret_key) = Ok msg)
    by (rewrite <- app_assoc; exact Hmsg).
  rewrite (octo_verify_valid _ _ _ _ msg Hmsg'), str_eqb_refl. reflexivity.
Qed.

Lemma X18_octo_create_signature_verifies_as_webhook_witness :
  result_valid
    (octo_verify_webhook_signature (lit "tx-1")
       (format_value (PyFloat 200000) ++ lit "UZS")
       (lit "ee463d155bb2cd6bcf8d5c50bc7700551ed392d743a13fa559f6e3c0f0c4e4be")
       (lit "k")) = Some true.
Proof.
  apply (X18_octo_create_signature_verifies_as_webhook (lit "pk") (lit "k")
           (PyFloat 200000) (lit "tx-1") (lit "https://myapp.com/ok") true
           (lit "UZS") false).
  vm_compute. reflexivity.
Defined.

